(** * graphene_django_cud.util

    A shallow embedding of [src/graphene_django_cud/util.py]: the identifier
    disambiguator, the nested-field normaliser, the input-field builders and
    the extras classifiers, with the properties the specification states
    about them.

    Python values are a small inductive type, exceptions are the [Raise]
    alternative of [result], and the collaborators the module imports
    ([from_global_id], the two converters, the type registry) are Section
    variables: every theorem holds for whatever they compute. *)

From Stdlib Require Import ZArith List Bool Ascii String Lia.
Import ListNotations.

Set Warnings "-register-all".

Local Open Scope string_scope.
Local Open Scope Z_scope.

(* ================================================================= *)
(** ** Python values *)

(** A float is not-a-number, an infinity, or the finite value [m * 2^e]. *)
Inductive pyfloat : Type :=
| FNan
| FInf (negative : bool)
| FFinite (m e : Z).

(** The values the module receives.  Dictionaries are keyed by names (str),
    the only keys the module writes or looks up, and keep insertion order. *)
Inductive pyval : Type :=
| PyNone
| PyBool (b : bool)
| PyInt (z : Z)
| PyFloat (f : pyfloat)
| PyStr (s : string)
| PyList (l : list pyval)
| PyTuple (l : list pyval)
| PyDict (d : list (string * pyval)).

(** Exceptions, by class, with their message (for [KeyError], the key).
    The messages of the builtins are abridged; those the module writes are
    in full. *)
Inductive exn : Type :=
| ValueError (msg : string)
| TypeError (msg : string)
| OverflowError (msg : string)
| KeyError (key : string)
| AttributeError (msg : string)
| GraphQLError (msg : string).

(** The outcome of a call: a value, or an exception on its way up. *)
Inductive result (A : Type) : Type :=
| Return (a : A)
| Raise (e : exn).

Arguments Return {A} a.
Arguments Raise {A} e.

Definition bind {A B : Type} (r : result A) (k : A -> result B) : result B :=
  match r with
  | Return a => k a
  | Raise e => Raise e
  end.

Notation "x <- r ;; k" := (bind r (fun x => k))
  (at level 61, r at next level, right associativity).

(** [except ValueError] catches the class and nothing else of [exn]. *)
Definition is_ValueError (e : exn) : bool :=
  match e with
  | ValueError _ => true
  | _ => false
  end.

(** [f"{type(v)}"]. *)
Definition py_type_repr (v : pyval) : string :=
  match v with
  | PyNone => "<class 'NoneType'>"
  | PyBool _ => "<class 'bool'>"
  | PyInt _ => "<class 'int'>"
  | PyFloat _ => "<class 'float'>"
  | PyStr _ => "<class 'str'>"
  | PyList _ => "<class 'list'>"
  | PyTuple _ => "<class 'tuple'>"
  | PyDict _ => "<class 'dict'>"
  end.

(** [isinstance(v, str)] and [isinstance(v, dict)]. *)
Definition is_str (v : pyval) : bool :=
  match v with PyStr _ => true | _ => false end.

Definition is_dict (v : pyval) : bool :=
  match v with PyDict _ => true | _ => false end.

(** [hasattr(v, "__iter__")]: strings, lists, tuples and dicts iterate;
    None, booleans and numbers do not. *)
Definition has_iter (v : pyval) : bool :=
  match v with
  | PyStr _ | PyList _ | PyTuple _ | PyDict _ => true
  | PyNone | PyBool _ | PyInt _ | PyFloat _ => false
  end.

(** The one-character strings of a string, in order (ASCII text: one
    character per byte). *)
Fixpoint chars (s : string) : list pyval :=
  match s with
  | EmptyString => []
  | String c rest => PyStr (String c EmptyString) :: chars rest
  end.

(** What [for el in v] visits: the characters of a string, the elements of a
    list or tuple, the keys of a dict. *)
Definition py_iter (v : pyval) : list pyval :=
  match v with
  | PyStr s => chars s
  | PyList l | PyTuple l => l
  | PyDict d => map (fun kv => PyStr (fst kv)) d
  | PyNone | PyBool _ | PyInt _ | PyFloat _ => []
  end.

(* ================================================================= *)
(** ** The builtin [int()] *)

Definition is_digit (c : ascii) : bool :=
  let n := nat_of_ascii c in (48 <=? n)%nat && (n <=? 57)%nat.

Definition digit_value (c : ascii) : Z := Z.of_nat (nat_of_ascii c) - 48.

(** Whitespace [int()] strips: tab to carriage return, and the space. *)
Definition is_space (c : ascii) : bool :=
  let n := nat_of_ascii c in
  ((9 <=? n)%nat && (n <=? 13)%nat) || (n =? 32)%nat.

Fixpoint lstrip (s : list ascii) : list ascii :=
  match s with
  | c :: rest => if is_space c then lstrip rest else s
  | [] => []
  end.

Definition strip (s : list ascii) : list ascii :=
  rev (lstrip (rev (lstrip s))).

(** Decimal digits, single underscores allowed between two digits.
    [after_digit] tells whether the character before was a digit. *)
Fixpoint parse_digits (acc : Z) (after_digit : bool) (s : list ascii) : option Z :=
  match s with
  | [] => if after_digit then Some acc else None
  | c :: rest =>
      if is_digit c then parse_digits (10 * acc + digit_value c) true rest
      else if Ascii.eqb c "_"%char then
        if after_digit then parse_digits acc false rest else None
      else None
  end.

(** A base-10 literal: optional sign, then the digits. *)
Definition parse_int_literal (s : list ascii) : option Z :=
  match strip s with
  | c :: rest =>
      if Ascii.eqb c "-"%char then option_map Z.opp (parse_digits 0 false rest)
      else if Ascii.eqb c "+"%char then parse_digits 0 false rest
      else parse_digits 0 false (c :: rest)
  | [] => None
  end.

(** [int(f)] for a float: truncation towards zero. *)
Definition int_of_float (f : pyfloat) : result Z :=
  match f with
  | FNan => Raise (ValueError "cannot convert float NaN to integer")
  | FInf _ => Raise (OverflowError "cannot convert float infinity to integer")
  | FFinite m e =>
      if 0 <=? e then Return (m * 2 ^ e) else Return (Z.quot m (2 ^ (- e)))
  end.

(** [int(v)]: numbers convert, ASCII text is parsed (the interpreter's
    configurable cap on the number of digits is left out), anything else is
    a type error. *)
Definition py_int (v : pyval) : result Z :=
  match v with
  | PyInt z => Return z
  | PyBool b => Return (if b then 1 else 0)
  | PyFloat f => int_of_float f
  | PyStr s =>
      match parse_int_literal (list_ascii_of_string s) with
      | Some z => Return z
      | None => Raise (ValueError "invalid literal for int() with base 10")
      end
  | PyNone | PyList _ | PyTuple _ | PyDict _ =>
      Raise (TypeError "int() argument must be a string, a bytes-like object or a real number")
  end.

(* ================================================================= *)
(** ** Identifier disambiguation *)

(** How a [try] statement stands when its [finally] clause is entered:
    its body and handlers fell through, asked to return, or left an
    exception in flight. *)
Inductive pending : Type :=
| FellThrough
| Returning (v : pyval)
| Raising (e : exn).

(** [finally: return v].  A return from the cleanup clause replaces whatever
    was pending, an exception in flight included. *)
Definition finally_return (p : pending) (v : pyval) : result pyval :=
  Return v.

Section Disambiguate.

(** [graphql_relay.from_global_id]: the type name and the local id of an
    encoded token, or the failure of a malformed one. *)
Variable from_global_id : pyval -> result (pyval * pyval).

Definition disambiguate_id (ambiguous_id : pyval) : result pyval :=
  let final_id := PyInt (-1) in
  let '(final_id, p) :=
    match py_int ambiguous_id with
    | Return z =>
        (* final_id = int(ambiguous_id); return final_id *)
        (PyInt z, Returning (PyInt z))
    | Raise e =>
        if is_ValueError e then
          (* except ValueError: (_, final_id) = from_global_id(ambiguous_id) *)
          match from_global_id ambiguous_id with
          | Return (_, local_id) => (local_id, FellThrough)
          | Raise e' => (final_id, Raising e')
          end
        else (final_id, Raising e)
    end in
  finally_return p final_id.

Fixpoint disambiguate_each (ids : list pyval) : result (list pyval) :=
  match ids with
  | [] => Return []
  | _id :: rest =>
      x <- disambiguate_id _id ;;
      xs <- disambiguate_each rest ;;
      Return (x :: xs)
  end.

Definition disambiguate_ids (ids : pyval) : result (list pyval) :=
  if negb (has_iter ids) then
    x <- disambiguate_id ids ;; Return [x]
  else disambiguate_each (py_iter ids).

End Disambiguate.

(* ================================================================= *)
(** ** Dictionaries *)

(** A dict (or OrderedDict) keyed by names: the items in insertion order. *)
Definition pydict (V : Type) : Type := list (string * V).

(** [d.get(k)]. *)
Fixpoint dict_get {V : Type} (k : string) (d : pydict V) : option V :=
  match d with
  | [] => None
  | (k', v) :: rest => if String.eqb k k' then Some v else dict_get k rest
  end.

(** [d[k] = v]: an existing key keeps its place, a new one goes last. *)
Fixpoint dict_set {V : Type} (k : string) (v : V) (d : pydict V) : pydict V :=
  match d with
  | [] => [(k, v)]
  | (k', v') :: rest =>
      if String.eqb k k' then (k, v) :: rest else (k', v') :: dict_set k v rest
  end.

(** [d[k]]. *)
Definition dict_getitem {V : Type} (k : string) (d : pydict V) : result V :=
  match dict_get k d with
  | Some v => Return v
  | None => Raise (KeyError k)
  end.

(** [d.keys()]. *)
Definition dict_keys {V : Type} (d : pydict V) : list string := map fst d.

(** [name in names], for a list or tuple of names. *)
Definition name_in (name : string) (names : list string) : bool :=
  existsb (String.eqb name) names.

(** [s.endswith(suffix)]. *)
Definition endswith (s suffix : string) : bool :=
  let n := String.length s in
  let k := String.length suffix in
  (k <=? n)%nat && String.eqb (substring (n - k) k s) suffix.

(* ================================================================= *)
(** ** Nested-field shorthand *)

(** The loop of [overload_nested_fields] over the entries of an iterable. *)
Fixpoint overload_entries (els : list pyval) (res : pydict pyval)
  : result (pydict pyval) :=
  match els with
  | [] => Return res
  | el :: rest =>
      match el with
      | PyStr name => overload_entries rest (dict_set name (PyList [PyStr "all"]) res)
      | _ =>
          Raise (ValueError
                   ("Nested field iterable entry has to be a string. Got "
                      ++ py_type_repr el))
      end
  end.

Definition overload_nested_fields (nested_fields : pyval) : result pyval :=
  match nested_fields with
  | PyNone => Return (PyDict [])
  | _ =>
      if is_dict nested_fields then Return nested_fields
      else if has_iter nested_fields then
        res <- overload_entries (py_iter nested_fields) [] ;;
        Return (PyDict res)
      else Return (PyDict [])
  end.

(* ================================================================= *)
(** ** Extras field names *)

(** An extras configuration: field name to operation name to a value, a
    boolean shorthand or a configuration dict. *)
Definition extras_config : Type := pydict (pydict pyval).

(** [not extras]: None and the empty dict are falsy. *)
Definition extras_falsy {V : Type} (extras : option (pydict V)) : bool :=
  match extras with
  | None | Some [] => true
  | Some (_ :: _) => false
  end.

(** [extras or {}]. *)
Definition extras_or_empty {V : Type} (extras : option (pydict V)) : pydict V :=
  match extras with
  | None => []
  | Some d => d
  end.

Definition get_m2m_all_extras_field_names (extras : option extras_config)
  : list string :=
  let res := [] in
  if extras_falsy extras then []
  else
    fold_left
      (fun res (item : string * pydict pyval) =>
         let '(name, extra) := item in
         fold_left
           (fun res (op : string * pyval) =>
              let '(extra_name, _) := op in
              if negb (String.eqb extra_name "exact")
              then (res ++ [(name ++ "_" ++ extra_name)%string])%list
              else (res ++ [name])%list)
           extra res)
      (extras_or_empty extras) res.

Definition get_fk_all_extras_field_names {V : Type} (extras : option (pydict V))
  : list string :=
  let res : list string := [] in
  if extras_falsy extras then [] else dict_keys (extras_or_empty extras).

(* ================================================================= *)
(** ** Input-field builders *)

(** A reflected field descriptor: its class, and [getattr(field,
    "primary_key", False)]. *)
Record django_field : Type := mkField {
  field_class : string;
  primary_key : bool
}.

(** Modelled from the spec: the field reflection source, which given a model
    returns an ordered sequence of (name, field descriptor) pairs.  A model
    is how it prints and what reflection lists for it. *)
Record django_model : Type := mkModel {
  model_str : string;
  model_fields : list (string * django_field)
}.

(** [graphene_django.utils.get_model_fields]: the (name, field) pairs of the
    model, in reflection order. *)
Definition get_model_fields (model : django_model)
  : list (string * django_field) :=
  model_fields model.

(** [d.get(k)] as a value: None for a missing key. *)
Definition dict_get_or_none (k : string) (d : pydict pyval) : pyval :=
  match dict_get k d with
  | Some v => v
  | None => PyNone
  end.

(** [d.get(k, {})] on a dict of dicts. *)
Definition dict_get_or_empty {V : Type} (k : string) (d : pydict (pydict V))
  : pydict V :=
  match dict_get k d with
  | Some v => v
  | None => []
  end.

(** [d.get(k, {})] on a dict of values. *)
Definition dict_get_or_empty_dict (k : string) (d : pydict pyval) : pyval :=
  match dict_get k d with
  | Some v => v
  | None => PyDict []
  end.

(** The message of the schema error for an extras entry on a missing field. *)
Definition extras_error_message (name : string) (model : django_model) : string :=
  "Error adding extras for " ++ name ++ " in model f" ++ model_str model
    ++ ". Field " ++ name ++ " does not exist.".

(** [if isinstance(data, bool): data = {}], then [data.get('type')], which
    only a dict answers. *)
Definition extra_data_config (data : pyval) : result pyval :=
  match data with
  | PyBool _ => Return (PyDict [])
  | PyDict _ => Return data
  | _ => Raise (AttributeError "object has no attribute 'get'")
  end.

Section Builders.

(** An input-type descriptor of the GraphQL library, and the type registry. *)
Variable InputType : Type.
Variable Registry : Type.

(** [get_global_registry()]. *)
Variable get_global_registry : Registry.

(** The converters of [graphene_django_cud.converter]: from a field, the
    registry, the required/optional/unspecified tri-state (True, False,
    None) and the extras, an input type or nothing. *)
Variable convert_django_field_with_choices :
  django_field -> Registry -> option bool -> pyval -> pyval -> option InputType.
Variable convert_many_to_many_field :
  django_field -> Registry -> option bool -> pyval -> pyval -> option InputType.

(** The mapping under construction and the fields saved for the extras. *)
Definition builder_state : Type :=
  (pydict (option InputType) * pydict django_field)%type.

(** *** [get_input_fields_for_model] *)

(** One round of the loop over the reflected fields. *)
Definition input_fields_step
  (registry : Registry)
  (only_fields exclude_fields optional_fields required_fields : list string)
  (many_to_many_extras : extras_config) (foreign_key_extras : pydict pyval)
  (st : builder_state) (item : string * django_field) : builder_state :=
  let '(fields, fields_lookup) := st in
  let '(name, field) := item in
  if primary_key field then (fields, fields_lookup)
  else
    let fields_lookup := dict_set name field fields_lookup in
    let is_not_in_only :=
      negb (Nat.eqb (List.length only_fields) 0) && negb (name_in name only_fields) in
    let is_excluded := name_in name exclude_fields in
    let is_no_backref := endswith name "+" in
    if is_not_in_only || is_excluded || is_no_backref then (fields, fields_lookup)
    else
      let required :=
        if name_in name optional_fields then Some false
        else if name_in name required_fields then Some true
        else None in
      let converted :=
        convert_django_field_with_choices
          field registry required
          (dict_get_or_none "exact" (dict_get_or_empty name many_to_many_extras))
          (dict_get_or_empty_dict name foreign_key_extras) in
      (dict_set name converted fields, fields_lookup).

(** The loop over the operations of one extras entry. *)
Fixpoint input_fields_extras_of
  (registry : Registry) (name : string) (field : django_field)
  (extras : pydict pyval) (fields : pydict (option InputType))
  : result (pydict (option InputType)) :=
  match extras with
  | [] => Return fields
  | (extra_name, data) :: rest =>
      if String.eqb extra_name "exact" then
        input_fields_extras_of registry name field rest fields
      else
        data <- extra_data_config data ;;
        _field <- match convert_many_to_many_field
                          field registry (Some false) data PyNone with
                  | Some t => Return (Some t)
                  | None => dict_getitem name fields
                  end ;;
        input_fields_extras_of registry name field rest
          (dict_set (name ++ "_" ++ extra_name) _field fields)
  end.

(** The loop over the entries of [many_to_many_extras]. *)
Fixpoint input_fields_extras
  (registry : Registry) (model : django_model)
  (many_to_many_extras : extras_config)
  (fields_lookup : pydict django_field) (fields : pydict (option InputType))
  : result (pydict (option InputType)) :=
  match many_to_many_extras with
  | [] => Return fields
  | (name, extras) :: rest =>
      match dict_get name fields_lookup with
      | None => Raise (GraphQLError (extras_error_message name model))
      | Some field =>
          fields <- input_fields_extras_of registry name field extras fields ;;
          input_fields_extras registry model rest fields_lookup fields
      end
  end.

(** The loop over the reflected fields, from the two empty dicts. *)
Definition input_fields_base
  (registry : Registry) (model_fields : list (string * django_field))
  (only_fields exclude_fields optional_fields required_fields : list string)
  (many_to_many_extras : extras_config) (foreign_key_extras : pydict pyval)
  : builder_state :=
  fold_left
    (input_fields_step registry only_fields exclude_fields
       optional_fields required_fields many_to_many_extras foreign_key_extras)
    model_fields ([], []).

Definition get_input_fields_for_model
  (model : django_model) (only_fields exclude_fields : list string)
  (optional_fields required_fields : list string)
  (many_to_many_extras : option extras_config)
  (foreign_key_extras : option (pydict pyval))
  : result (pydict (option InputType)) :=
  let registry := get_global_registry in
  let model_fields := get_model_fields model in
  let many_to_many_extras := extras_or_empty many_to_many_extras in
  let foreign_key_extras := extras_or_empty foreign_key_extras in
  let '(fields, fields_lookup) :=
    input_fields_base registry model_fields only_fields exclude_fields
      optional_fields required_fields many_to_many_extras foreign_key_extras in
  input_fields_extras registry model many_to_many_extras fields_lookup fields.

(** *** [get_all_optional_input_fields_for_model] *)

Definition all_optional_step
  (registry : Registry) (only_fields exclude_fields : list string)
  (many_to_many_extras : extras_config) (foreign_key_extras : pydict pyval)
  (st : builder_state) (item : string * django_field) : builder_state :=
  let '(fields, fields_lookup) := st in
  let '(name, field) := item in
  if primary_key field then (fields, fields_lookup)
  else
    let fields_lookup := dict_set name field fields_lookup in
    let is_not_in_only :=
      negb (Nat.eqb (List.length only_fields) 0) && negb (name_in name only_fields) in
    let is_excluded := name_in name exclude_fields in
    let is_no_backref := endswith name "+" in
    if is_not_in_only || is_excluded || is_no_backref then (fields, fields_lookup)
    else
      let converted :=
        convert_django_field_with_choices
          field registry (Some false)
          (dict_get_or_none "exact" (dict_get_or_empty name many_to_many_extras))
          (dict_get_or_empty_dict name foreign_key_extras) in
      (dict_set name converted fields, fields_lookup).

Fixpoint all_optional_extras_of
  (registry : Registry) (name : string) (field : django_field)
  (extras : pydict pyval) (fields : pydict (option InputType))
  : result (pydict (option InputType)) :=
  match extras with
  | [] => Return fields
  | (extra_name, data) :: rest =>
      if String.eqb extra_name "exact" then
        all_optional_extras_of registry name field rest fields
      else
        data <- extra_data_config data ;;
        _field <- match convert_many_to_many_field
                          field registry (Some false) data PyNone with
                  | Some t => Return (Some t)
                  | None => dict_getitem name fields
                  end ;;
        all_optional_extras_of registry name field rest
          (dict_set (name ++ "_" ++ extra_name) _field fields)
  end.

Fixpoint all_optional_extras
  (registry : Registry) (model : django_model)
  (many_to_many_extras : extras_config)
  (fields_lookup : pydict django_field) (fields : pydict (option InputType))
  : result (pydict (option InputType)) :=
  match many_to_many_extras with
  | [] => Return fields
  | (name, extras) :: rest =>
      match dict_get name fields_lookup with
      | None => Raise (GraphQLError (extras_error_message name model))
      | Some field =>
          fields <- all_optional_extras_of registry name field extras fields ;;
          all_optional_extras registry model rest fields_lookup fields
      end
  end.

Definition all_optional_base
  (registry : Registry) (model_fields : list (string * django_field))
  (only_fields exclude_fields : list string)
  (many_to_many_extras : extras_config) (foreign_key_extras : pydict pyval)
  : builder_state :=
  fold_left
    (all_optional_step registry only_fields exclude_fields
       many_to_many_extras foreign_key_extras)
    model_fields ([], []).

Definition get_all_optional_input_fields_for_model
  (model : django_model) (only_fields exclude_fields : list string)
  (many_to_many_extras : option extras_config)
  (foreign_key_extras : option (pydict pyval))
  : result (pydict (option InputType)) :=
  let registry := get_global_registry in
  let model_fields := get_model_fields model in
  let many_to_many_extras := extras_or_empty many_to_many_extras in
  let foreign_key_extras := extras_or_empty foreign_key_extras in
  let '(fields, fields_lookup) :=
    all_optional_base registry model_fields only_fields exclude_fields
      many_to_many_extras foreign_key_extras in
  all_optional_extras registry model many_to_many_extras fields_lookup fields.

End Builders.

Arguments get_input_fields_for_model {InputType Registry}.
Arguments get_all_optional_input_fields_for_model {InputType Registry}.
Arguments input_fields_base {InputType Registry}.
Arguments input_fields_extras {InputType Registry}.
Arguments input_fields_extras_of {InputType Registry}.
Arguments input_fields_step {InputType Registry}.
Arguments all_optional_base {InputType Registry}.
Arguments all_optional_extras {InputType Registry}.
Arguments all_optional_extras_of {InputType Registry}.
Arguments all_optional_step {InputType Registry}.

(* ================================================================= *)
(** ** Operation aliases, validators, relation kinds *)

(** [s.lower()] on ASCII text. *)
Definition lower_char (c : ascii) : ascii :=
  let n := nat_of_ascii c in
  if (65 <=? n)%nat && (n <=? 90)%nat then ascii_of_nat (n + 32) else c.

Fixpoint lower (s : string) : string :=
  match s with
  | EmptyString => EmptyString
  | String c rest => String (lower_char c) (lower rest)
  end.

Definition get_likely_operation_from_name (extra_name : string) : result string :=
  let extra_name := lower extra_name in
  if String.eqb extra_name "update" || String.eqb extra_name "patch"
  then Return "update"
  else if String.eqb extra_name "add" || String.eqb extra_name "append"
          || String.eqb extra_name "exact"
  then Return "add"
  else if String.eqb extra_name "delete" || String.eqb extra_name "remove"
  then Return "remove"
  else Raise (GraphQLError ("Unknown extra operation " ++ extra_name)).

(** The validators: each body is [pass]. *)
Definition _validate_create_many_to_many_extras (extras : pyval) : pyval := PyNone.
Definition _validate_update_many_to_many_extras (extras : pyval) : pyval := PyNone.
Definition validate_many_to_many_extras (extras operation_type : pyval) : pyval :=
  PyNone.
Definition _validate_create_foreign_key_extras (extras : pyval) : pyval := PyNone.
Definition _validate_update_foreign_key_extras (extras : pyval) : pyval := PyNone.
Definition validate_foreign_key_extras (extras operation_type : pyval) : pyval :=
  PyNone.

(** [type(field) in (ManyToManyField, ManyToManyRel, ManyToOneRel)], a field
    carrying the name of its class. *)
Definition is_many_to_many (field : django_field) : bool :=
  name_in (field_class field)
    ["ManyToManyField"; "ManyToManyRel"; "ManyToOneRel"].

(* ================================================================= *)
(** ** Properties stated by the specification *)

(** The specification's flattening of an extras configuration: per entry and
    per operation, the base name for "exact" and name, underscore, operation
    for any other. *)
Definition derived_field_names (extras : option extras_config) : list string :=
  flat_map
    (fun item : string * pydict pyval =>
       map (fun op : string * pyval =>
              if String.eqb (fst op) "exact" then fst item
              else fst item ++ "_" ++ fst op)
           (snd item))
    (extras_or_empty extras).

(** A name gets through the only / exclude / no-backref tests. *)
Definition passes_filtering (only_fields exclude_fields : list string)
  (name : string) : Prop :=
  (only_fields = [] \/ In name only_fields)
  /\ ~ In name exclude_fields
  /\ endswith name "+" = false.

(** The test of the loop over the reflected fields that skips a name. *)
Definition is_skipped (only_fields exclude_fields : list string)
  (name : string) : bool :=
  (negb (Nat.eqb (List.length only_fields) 0) && negb (name_in name only_fields))
  || name_in name exclude_fields
  || endswith name "+".

(** A value an extras operation may carry: the boolean shorthand or a
    configuration dict. *)
Definition is_config_value (data : pyval) : bool :=
  match data with
  | PyBool _ | PyDict _ => true
  | _ => false
  end.

(** The aliases [get_likely_operation_from_name] knows, each with the
    operation it stands for. *)
Definition operation_aliases : list (string * string) :=
  [("update", "update"); ("patch", "update");
   ("add", "add"); ("append", "add"); ("exact", "add");
   ("delete", "remove"); ("remove", "remove")].

(** The names of a list in the order of their first occurrence. *)
Definition first_occurrences (names : list string) : list string :=
  fold_left
    (fun seen name => if name_in name seen then seen else (seen ++ [name])%list)
    names [].

(** The field is converted by the first loop of the builders. *)
Definition is_kept (only_fields exclude_fields : list string)
  (item : string * django_field) : bool :=
  negb (primary_key (snd item))
  && negb (is_skipped only_fields exclude_fields (fst item)).

(** Two outcomes of a builder that differ at most in the values stored:
    mappings with the same keys in the same order, or the same failure. *)
Definition same_keys_or_failure {V : Type} (r1 r2 : result (pydict V)) : Prop :=
  match r1, r2 with
  | Return fields1, Return fields2 => dict_keys fields1 = dict_keys fields2
  | Raise e1, Raise e2 => e1 = e2
  | _, _ => False
  end.

(** A name of a reflected field that is not the primary key. *)
Definition reflected (model : django_model) (name : string) : Prop :=
  exists field,
    In (name, field) (get_model_fields model) /\ primary_key field = false.

(** A key that is the name of a reflected, non-primary-key field which
    passed the filtering. *)
Definition base_key (model : django_model)
  (only_fields exclude_fields : list string) (key : string) : Prop :=
  reflected model key /\ passes_filtering only_fields exclude_fields key.

(** A key made of the name of a field satisfying [P], an underscore and an
    operation other than "exact" declared for that field. *)
Definition extras_key (P : string -> Prop) (many_to_many_extras : extras_config)
  (key : string) : Prop :=
  exists name extras op data,
    P name
    /\ In (name, extras) many_to_many_extras
    /\ In (op, data) extras
    /\ op <> "exact"
    /\ key = name ++ "_" ++ op.

(* ================================================================= *)
(** ** Sample collaborators

    Instances of the Section variables, for running the functions on
    concrete inputs. *)

Definition b64_index (c : ascii) : option N :=
  let n := N_of_ascii c in
  if (65 <=? n)%N && (n <=? 90)%N then Some (n - 65)%N
  else if (97 <=? n)%N && (n <=? 122)%N then Some (n - 71)%N
  else if (48 <=? n)%N && (n <=? 57)%N then Some (n + 4)%N
  else if (n =? 43)%N then Some 62%N
  else if (n =? 47)%N then Some 63%N
  else None.

(** The bytes of one group of four base64 digits, the first [k] of them. *)
Definition b64_group (v1 v2 v3 v4 : N) (k : nat) : list ascii :=
  let n := (v1 * 262144 + v2 * 4096 + v3 * 64 + v4)%N in
  firstn k [ascii_of_N (n / 65536); ascii_of_N ((n / 256) mod 256);
            ascii_of_N (n mod 256)].

Fixpoint b64_decode (s : list ascii) : option (list ascii) :=
  match s with
  | [] => Some []
  | c1 :: c2 :: c3 :: c4 :: rest =>
      match b64_index c1, b64_index c2, b64_index c3, b64_index c4, rest with
      | Some v1, Some v2, Some v3, Some v4, _ =>
          option_map (app (b64_group v1 v2 v3 v4 3)) (b64_decode rest)
      | Some v1, Some v2, Some v3, None, [] =>
          if Ascii.eqb c4 "="%char then Some (b64_group v1 v2 v3 0 2) else None
      | Some v1, Some v2, None, None, [] =>
          if Ascii.eqb c3 "="%char && Ascii.eqb c4 "="%char
          then Some (b64_group v1 v2 0 0 1) else None
      | _, _, _, _, _ => None
      end
  | _ => None
  end.

(** [text.split(":", 1)] when the separator occurs. *)
Fixpoint split_colon (s : list ascii) : option (list ascii * list ascii) :=
  match s with
  | [] => None
  | c :: rest =>
      if Ascii.eqb c ":"%char then Some ([], rest)
      else option_map (fun p => (c :: fst p, snd p)) (split_colon rest)
  end.

(** A global-id codec after the Relay convention, base64 of
    [type ":" id] over ASCII text; both parts come back as strings. *)
Definition relay_codec (token : pyval) : result (pyval * pyval) :=
  match token with
  | PyStr s =>
      match b64_decode (list_ascii_of_string s) with
      | Some bytes =>
          if forallb (fun c => (N_of_ascii c <? 128)%N) bytes then
            match split_colon bytes with
            | Some (_type, _id) =>
                Return (PyStr (string_of_list_ascii _type),
                        PyStr (string_of_list_ascii _id))
            | None => Raise (ValueError "not enough values to unpack")
            end
          else Raise (ValueError "invalid start byte")
      | None => Raise (ValueError "Incorrect padding")
      end
  | _ => Raise (TypeError "argument should be a str")
  end.

(** Sample converters: input types are described by a string.  A base field
    converts to its class with the tri-state it was given; an extras
    operation converts to a list of its declared "type", and to nothing
    when it declares none, a stub that takes the builders through their
    fallback branch. *)
Definition sample_convert_field (field : django_field) (registry : unit)
  (required : option bool) (exact_extra fk_extra : pyval) : option string :=
  Some (field_class field
          ++ match required with
             | Some true => "!"
             | Some false => "?"
             | None => ""
             end).

Definition sample_convert_m2m (field : django_field) (registry : unit)
  (required : option bool) (data other : pyval) : option string :=
  match data with
  | PyDict d =>
      match dict_get "type" d with
      | Some (PyStr t) => Some ("[" ++ t ++ "]")
      | _ => None
      end
  | _ => None
  end.

Definition sample_model : django_model :=
  mkModel "<class 'Article'>"
    [("id", mkField "AutoField" true);
     ("name", mkField "CharField" false);
     ("parent", mkField "ForeignKey" false);
     ("tags", mkField "ManyToManyField" false)].


(** The claim that a failed decode reaches the caller, for one codec. *)
Definition decode_failure_propagates
  (from_global_id : pyval -> result (pyval * pyval)) : Prop :=
  forall token e e',
    py_int token = Raise e ->
    from_global_id token = Raise e' ->
    disambiguate_id from_global_id token = Raise e'.

(* ================================================================= *)
(** * Identifier disambiguation: proofs *)

Section DisambiguateFacts.

Variable from_global_id : pyval -> result (pyval * pyval).

Lemma disambiguate_id_parsed (token : pyval) (z : Z) :
  py_int token = Return z ->
  disambiguate_id from_global_id token = Return (PyInt z).
Proof.
  intros Hint. unfold disambiguate_id. now rewrite Hint.
Qed.

Lemma disambiguate_id_decoded (token type_name local_id : pyval) (msg : string) :
  py_int token = Raise (ValueError msg) ->
  from_global_id token = Return (type_name, local_id) ->
  disambiguate_id from_global_id token = Return local_id.
Proof.
  intros Hint Hdec. unfold disambiguate_id. rewrite Hint. cbn.
  now rewrite Hdec.
Qed.

Lemma disambiguate_id_fallback (token : pyval) (e : exn) :
  py_int token = Raise e ->
  (is_ValueError e = true -> exists e', from_global_id token = Raise e') ->
  disambiguate_id from_global_id token = Return (PyInt (-1)).
Proof.
  intros Hint Hdec. unfold disambiguate_id. rewrite Hint.
  destruct (is_ValueError e) eqn:He.
  - destruct (Hdec eq_refl) as [e' He']. now rewrite He'.
  - reflexivity.
Qed.

(** No exception leaves [disambiguate_id]: the cleanup clause returns. *)
Lemma disambiguate_id_returns (token : pyval) :
  exists v, disambiguate_id from_global_id token = Return v.
Proof.
  unfold disambiguate_id.
  destruct (py_int token) as [z | e]; [now eexists |].
  destruct (is_ValueError e); [| now eexists].
  destruct (from_global_id token) as [[? local_id] | e']; now eexists.
Qed.

Lemma disambiguate_each_returns (ids : list pyval) :
  exists vs,
    disambiguate_each from_global_id ids = Return vs
    /\ Forall2 (fun el v => disambiguate_id from_global_id el = Return v) ids vs.
Proof.
  induction ids as [| el rest IH]; cbn.
  - exists []. split; [reflexivity | constructor].
  - destruct (disambiguate_id_returns el) as [v Hv].
    destruct IH as (vs & Hvs & Hall).
    exists (v :: vs). rewrite Hv, Hvs. cbn. split; [reflexivity |].
    now constructor.
Qed.

End DisambiguateFacts.

(** C1 (as amended).  When the integer parse of a token fails and the
    global-id decoding of it fails too, [disambiguate_id] returns -1, the
    value [final_id] starts with: the return of the cleanup clause discards
    the decode failure and no error reaches the caller. *)
Theorem disambiguate_id_masks_decode_failure
  (from_global_id : pyval -> result (pyval * pyval))
  (token : pyval) (e e' : exn) :
  py_int token = Raise e ->
  from_global_id token = Raise e' ->
  disambiguate_id from_global_id token = Return (PyInt (-1)).
Proof.
  intros Hint Hdec.
  apply disambiguate_id_fallback with (e := e); [exact Hint |].
  intros _. now exists e'.
Qed.

Lemma disambiguate_id_masks_decode_failure_witness :
  disambiguate_id relay_codec (PyStr "??") = Return (PyInt (-1)).
Proof.
  apply (disambiguate_id_masks_decode_failure relay_codec (PyStr "??")
           (ValueError "invalid literal for int() with base 10")
           (ValueError "Incorrect padding")); reflexivity.
Defined.

(** C1, as the specification states it, fails on the token "??": the integer
    parse raises, the codec raises, and the caller gets -1, not the error. *)
Lemma decode_failure_is_not_propagated :
  py_int (PyStr "??") = Raise (ValueError "invalid literal for int() with base 10")
  /\ relay_codec (PyStr "??") = Raise (ValueError "Incorrect padding")
  /\ disambiguate_id relay_codec (PyStr "??") = Return (PyInt (-1))
  /\ ~ decode_failure_propagates relay_codec.
Proof.
  repeat split; try reflexivity.
  intros Hclaim.
  specialize (Hclaim (PyStr "??") _ _ eq_refl eq_refl).
  discriminate Hclaim.
Qed.

(** C4.  A token [int()] accepts, a number or a numeric string, is
    disambiguated to its integer value.  A token [int()] rejects with a value
    error and the codec decodes to a type name and a local id is
    disambiguated to that local id, as the codec gave it; the type name plays
    no part. *)
Theorem disambiguate_id_value
  (from_global_id : pyval -> result (pyval * pyval)) :
  (forall token z,
      py_int token = Return z ->
      disambiguate_id from_global_id token = Return (PyInt z))
  /\ (forall token msg type_name local_id,
         py_int token = Raise (ValueError msg) ->
         from_global_id token = Return (type_name, local_id) ->
         disambiguate_id from_global_id token = Return local_id).
Proof.
  split.
  - apply disambiguate_id_parsed.
  - intros token msg type_name local_id. apply disambiguate_id_decoded.
Qed.

Lemma disambiguate_id_value_witness :
  disambiguate_id relay_codec (PyInt 7) = Return (PyInt 7)
  /\ disambiguate_id relay_codec (PyStr " -1_000 ") = Return (PyInt (-1000))
  /\ disambiguate_id relay_codec (PyStr "Tm9kZTo0Mg==") = Return (PyStr "42").
Proof.
  destruct (disambiguate_id_value relay_codec) as [Hparsed Hdecoded].
  split; [| split].
  - apply Hparsed. reflexivity.
  - apply Hparsed. reflexivity.
  - apply (Hdecoded (PyStr "Tm9kZTo0Mg==")
             "invalid literal for int() with base 10" (PyStr "Node"));
      reflexivity.
Defined.

(** C7 (as amended).  An argument without [__iter__] gives the one-element
    list of its disambiguation.  An iterable gives the disambiguations of
    its elements, one per element and in their order.  So the list of 1, "2"
    and a token [int()] rejects and the codec decodes to local id [n] gives
    1, 2, [n]: the local id as the codec returns it, not converted. *)
Theorem disambiguate_ids_elementwise
  (from_global_id : pyval -> result (pyval * pyval)) :
  (forall x,
      has_iter x = false ->
      exists v,
        disambiguate_id from_global_id x = Return v
        /\ disambiguate_ids from_global_id x = Return [v])
  /\ (forall ids,
         has_iter ids = true ->
         exists vs,
           disambiguate_ids from_global_id ids = Return vs
           /\ Forall2 (fun el v => disambiguate_id from_global_id el = Return v)
                (py_iter ids) vs)
  /\ (forall encoded msg type_name n,
         py_int encoded = Raise (ValueError msg) ->
         from_global_id encoded = Return (type_name, n) ->
         disambiguate_ids from_global_id (PyList [PyInt 1; PyStr "2"; encoded])
         = Return [PyInt 1; PyInt 2; n]).
Proof.
  split; [| split].
  - intros x Hx. destruct (disambiguate_id_returns from_global_id x) as [v Hv].
    exists v. split; [exact Hv |].
    unfold disambiguate_ids. rewrite Hx, Hv. reflexivity.
  - intros ids Hids. unfold disambiguate_ids. rewrite Hids. cbn [negb].
    apply disambiguate_each_returns.
  - intros encoded msg type_name n Hint Hdec.
    unfold disambiguate_ids. cbn [has_iter negb py_iter disambiguate_each].
    rewrite (disambiguate_id_decoded from_global_id _ _ _ _ Hint Hdec).
    reflexivity.
Qed.

Lemma disambiguate_ids_elementwise_witness :
  (exists v,
      disambiguate_id relay_codec (PyInt 5) = Return v
      /\ disambiguate_ids relay_codec (PyInt 5) = Return [v])
  /\ (exists vs,
         disambiguate_ids relay_codec (PyTuple [PyStr "8"; PyInt 9]) = Return vs
         /\ Forall2 (fun el v => disambiguate_id relay_codec el = Return v)
              [PyStr "8"; PyInt 9] vs)
  /\ disambiguate_ids relay_codec (PyList [PyInt 1; PyStr "2"; PyStr "VDoz"])
     = Return [PyInt 1; PyInt 2; PyStr "3"].
Proof.
  destruct (disambiguate_ids_elementwise relay_codec) as (Hone & Hmany & Hex).
  split; [| split].
  - exact (Hone (PyInt 5) eq_refl).
  - exact (Hmany (PyTuple [PyStr "8"; PyInt 9]) eq_refl).
  - apply (Hex (PyStr "VDoz") "invalid literal for int() with base 10"
             (PyStr "T")); reflexivity.
Defined.

(** C7, as the specification states it, fails on its own example: the relay
    codec decodes the token of type "T" and id 3 to the text "3", and
    [disambiguate_ids] returns 1, 2, "3", which is not the list 1, 2, 3. *)
Lemma decoded_local_id_stays_text :
  relay_codec (PyStr "VDoz") = Return (PyStr "T", PyStr "3")
  /\ disambiguate_ids relay_codec (PyList [PyInt 1; PyStr "2"; PyStr "VDoz"])
     = Return [PyInt 1; PyInt 2; PyStr "3"]
  /\ disambiguate_ids relay_codec (PyList [PyInt 1; PyStr "2"; PyStr "VDoz"])
     <> Return [PyInt 1; PyInt 2; PyInt 3].
Proof.
  split; [reflexivity |]. split; [reflexivity | discriminate].
Qed.

(** C10.  A string has [__iter__], so [disambiguate_ids] of a bare string
    disambiguates its characters one by one: "12" gives the list 1, 2 and
    not the list holding 12. *)
Theorem disambiguate_ids_of_string
  (from_global_id : pyval -> result (pyval * pyval)) :
  (forall s,
      exists vs,
        disambiguate_ids from_global_id (PyStr s) = Return vs
        /\ Forall2 (fun c v => disambiguate_id from_global_id c = Return v)
             (chars s) vs)
  /\ chars "12" = [PyStr "1"; PyStr "2"]
  /\ disambiguate_ids from_global_id (PyStr "12") = Return [PyInt 1; PyInt 2]
  /\ disambiguate_ids from_global_id (PyStr "12") <> Return [PyInt 12].
Proof.
  split; [| split; [| split]].
  - intros s. unfold disambiguate_ids. cbn [has_iter negb py_iter].
    apply disambiguate_each_returns.
  - reflexivity.
  - reflexivity.
  - discriminate.
Qed.

(* ================================================================= *)
(** * Dictionaries: facts *)

Lemma name_in_In (name : string) (names : list string) :
  name_in name names = true <-> In name names.
Proof.
  unfold name_in. rewrite existsb_exists. split.
  - intros (x & Hx & Heq). apply String.eqb_eq in Heq. now subst.
  - intros Hin. exists name. split; [exact Hin | apply String.eqb_refl].
Qed.

Lemma name_in_not_In (name : string) (names : list string) :
  name_in name names = false <-> ~ In name names.
Proof.
  rewrite <- name_in_In. destruct (name_in name names); split;
    congruence || (intros H; now elim H).
Qed.

Section DictFacts.

Context {V : Type}.

Lemma dict_keys_set (k x : string) (v : V) (d : pydict V) :
  In x (dict_keys (dict_set k v d)) <-> x = k \/ In x (dict_keys d).
Proof.
  induction d as [| [k' v'] rest IH]; cbn.
  - intuition congruence.
  - destruct (String.eqb_spec k k') as [-> | Hne]; cbn.
    + intuition congruence.
    + unfold dict_keys in IH. rewrite IH. intuition congruence.
Qed.

Lemma dict_get_set_same (k : string) (v : V) (d : pydict V) :
  dict_get k (dict_set k v d) = Some v.
Proof.
  induction d as [| [k' v'] rest IH]; cbn.
  - now rewrite String.eqb_refl.
  - destruct (String.eqb_spec k k') as [-> | Hne]; cbn.
    + now rewrite String.eqb_refl.
    + destruct (String.eqb_spec k k'); [contradiction | exact IH].
Qed.

Lemma dict_get_set_other (k k' : string) (v : V) (d : pydict V) :
  k' <> k ->
  dict_get k' (dict_set k v d) = dict_get k' d.
Proof.
  intros Hne. induction d as [| [k0 v0] rest IH]; cbn.
  - destruct (String.eqb_spec k' k); [contradiction | reflexivity].
  - destruct (String.eqb_spec k k0) as [-> | Hk]; cbn.
    + destruct (String.eqb_spec k' k0); [contradiction | reflexivity].
    + destruct (String.eqb_spec k' k0); [reflexivity | exact IH].
Qed.

Lemma dict_get_none_keys (k : string) (d : pydict V) :
  dict_get k d = None <-> ~ In k (dict_keys d).
Proof.
  induction d as [| [k' v'] rest IH]; cbn.
  - intuition.
  - destruct (String.eqb_spec k k') as [-> | Hne].
    + split; [discriminate | intros H; elim H; now left].
    + unfold dict_keys in IH. rewrite IH. intuition congruence.
Qed.

Lemma dict_get_some_keys (k : string) (v : V) (d : pydict V) :
  dict_get k d = Some v -> In k (dict_keys d).
Proof.
  intros Hget. destruct (in_dec string_dec k (dict_keys d)) as [Hin | Hout].
  - exact Hin.
  - apply dict_get_none_keys in Hout. congruence.
Qed.

End DictFacts.

(* ================================================================= *)
(** * Nested-field shorthand: proofs *)

Lemma overload_entries_names (names : list string) (res : pydict pyval) :
  exists d,
    overload_entries (map PyStr names) res = Return d
    /\ (forall k, In k (dict_keys d) <-> In k (dict_keys res) \/ In k names)
    /\ (forall k, In k names -> dict_get k d = Some (PyList [PyStr "all"]))
    /\ (forall k, ~ In k names -> dict_get k d = dict_get k res).
Proof.
  revert res. induction names as [| name rest IH]; intros res; cbn.
  - exists res. repeat split; intuition.
  - destruct (IH (dict_set name (PyList [PyStr "all"]) res))
      as (d & Hrun & Hkeys & Hval & Hframe).
    exists d. split; [exact Hrun |]. split; [| split].
    + intros k. rewrite Hkeys, dict_keys_set. intuition congruence.
    + intros k Hk. destruct (in_dec string_dec k rest) as [Hin | Hout].
      * now apply Hval.
      * destruct Hk as [-> | Hk]; [| contradiction].
        rewrite (Hframe _ Hout). apply dict_get_set_same.
    + intros k Hk. rewrite Hframe by tauto.
      apply dict_get_set_other. intros ->. apply Hk. now left.
Qed.

Lemma overload_entries_rejects (pre : list string) (el : pyval)
  (post : list pyval) (res : pydict pyval) :
  is_str el = false ->
  overload_entries (map PyStr pre ++ el :: post)%list res
  = Raise (ValueError
             ("Nested field iterable entry has to be a string. Got "
                ++ py_type_repr el)).
Proof.
  intros Hel. revert res. induction pre as [| name rest IH]; intros res; cbn.
  - destruct el; try reflexivity. discriminate Hel.
  - apply IH.
Qed.

(** C6.  [overload_nested_fields] maps None to the empty dict and a dict to
    itself; an iterable of names to a dict whose keys are those names, each
    with the value ["all"]; an iterable with a non-string element to the
    value error that names the type of the first such element; and anything
    else to the empty dict. *)
Theorem overload_nested_fields_cases :
  overload_nested_fields PyNone = Return (PyDict [])
  /\ (forall d, overload_nested_fields (PyDict d) = Return (PyDict d))
  /\ (forall v names,
         is_dict v = false ->
         has_iter v = true ->
         py_iter v = map PyStr names ->
         exists d,
           overload_nested_fields v = Return (PyDict d)
           /\ (forall name, In name (dict_keys d) <-> In name names)
           /\ (forall name,
                  In name names -> dict_get name d = Some (PyList [PyStr "all"])))
  /\ (forall v pre el post,
         is_dict v = false ->
         has_iter v = true ->
         py_iter v = (map PyStr pre ++ el :: post)%list ->
         is_str el = false ->
         overload_nested_fields v
         = Raise (ValueError
                    ("Nested field iterable entry has to be a string. Got "
                       ++ py_type_repr el)))
  /\ (forall v,
         has_iter v = false ->
         overload_nested_fields v = Return (PyDict [])).
Proof.
  split; [reflexivity |]. split; [reflexivity |]. split; [| split].
  - intros v names Hdict Hiter Hels.
    destruct (overload_entries_names names []) as (d & Hrun & Hkeys & Hval & _).
    exists d. split; [| split].
    + destruct v; try discriminate; unfold overload_nested_fields;
        cbn [is_dict has_iter]; rewrite Hels, Hrun; reflexivity.
    + intros name. rewrite Hkeys. cbn. tauto.
    + exact Hval.
  - intros v pre el post Hdict Hiter Hels Hel.
    destruct v; try discriminate; unfold overload_nested_fields;
      cbn [is_dict has_iter]; rewrite Hels, (overload_entries_rejects _ _ _ _ Hel);
      reflexivity.
  - intros v Hiter.
    destruct v; try discriminate; reflexivity.
Qed.

Lemma overload_nested_fields_cases_witness :
  (exists d,
      overload_nested_fields (PyList [PyStr "a"; PyStr "b"]) = Return (PyDict d)
      /\ (forall name, In name (dict_keys d) <-> In name ["a"; "b"])
      /\ (forall name,
             In name ["a"; "b"] -> dict_get name d = Some (PyList [PyStr "all"])))
  /\ overload_nested_fields (PyList [PyInt 1])
     = Raise (ValueError
                "Nested field iterable entry has to be a string. Got <class 'int'>")
  /\ overload_nested_fields (PyInt 3) = Return (PyDict []).
Proof.
  destruct overload_nested_fields_cases as (_ & _ & Hnames & Hbad & Hother).
  split; [| split].
  - exact (Hnames (PyList [PyStr "a"; PyStr "b"]) ["a"; "b"]
             eq_refl eq_refl eq_refl).
  - exact (Hbad (PyList [PyInt 1]) [] (PyInt 1) [] eq_refl eq_refl eq_refl eq_refl).
  - apply Hother. reflexivity.
Defined.

(* ================================================================= *)
(** * Extras field names: proofs *)

Lemma fold_left_append {A B : Type} (f : B -> A) (l : list B) (acc : list A) :
  fold_left (fun res x => (res ++ [f x])%list) l acc = (acc ++ map f l)%list.
Proof.
  revert acc. induction l as [| x rest IH]; intros acc; cbn.
  - now rewrite app_nil_r.
  - rewrite IH, <- app_assoc. reflexivity.
Qed.

Lemma m2m_names_loop (extras : extras_config) (acc : list string) :
  fold_left
    (fun res (item : string * pydict pyval) =>
       let '(name, extra) := item in
       fold_left
         (fun res (op : string * pyval) =>
            let '(extra_name, _) := op in
            if negb (String.eqb extra_name "exact")
            then (res ++ [(name ++ "_" ++ extra_name)%string])%list
            else (res ++ [name])%list)
         extra res)
    extras acc
  = (acc ++ derived_field_names (Some extras))%list.
Proof.
  revert acc. induction extras as [| [name extra] rest IH]; intros acc.
  - cbn. now rewrite app_nil_r.
  - cbn [fold_left]. rewrite IH. unfold derived_field_names. cbn [extras_or_empty flat_map fst snd].
    rewrite app_assoc. f_equal.
    rewrite <- (fold_left_append
                  (fun op : string * pyval =>
                     if String.eqb (fst op) "exact" then name
                     else (name ++ "_" ++ fst op)%string)).
    clear IH. revert acc. induction extra as [| [extra_name data] ops IHops];
      intros acc; [reflexivity |].
    cbn [fold_left fst]. rewrite <- IHops.
    destruct (String.eqb extra_name "exact"); reflexivity.
Qed.

Lemma get_m2m_all_extras_field_names_derived (extras : option extras_config) :
  get_m2m_all_extras_field_names extras = derived_field_names extras.
Proof.
  unfold get_m2m_all_extras_field_names.
  destruct extras as [[| item rest] |]; cbn [extras_falsy extras_or_empty];
    try reflexivity.
  apply (m2m_names_loop (item :: rest) []).
Qed.

(** C3 (as amended).  [get_m2m_all_extras_field_names] returns the derived
    names of an extras configuration, entry by entry and operation by
    operation: the base name for "exact", name, underscore, operation for any
    other.  [get_fk_all_extras_field_names] returns the field names of the
    configuration, one per entry, whatever operations the entry declares. *)
Theorem extras_field_names :
  (forall extras : option extras_config,
      get_m2m_all_extras_field_names extras = derived_field_names extras)
  /\ (forall extras : option extras_config,
         get_fk_all_extras_field_names extras
         = map fst (extras_or_empty extras)).
Proof.
  split.
  - apply get_m2m_all_extras_field_names_derived.
  - intros [[| item rest] |]; reflexivity.
Qed.

(** C3, as the specification states it, fails for the foreign-key function:
    on an entry "parent" declaring the operation "add" it returns "parent",
    where the derived name is "parent_add". *)
Lemma fk_extras_field_names_are_keys :
  get_fk_all_extras_field_names (Some [("parent", [("add", PyBool true)])])
  = ["parent"]
  /\ derived_field_names (Some [("parent", [("add", PyBool true)])])
     = ["parent_add"]
  /\ get_fk_all_extras_field_names (Some [("parent", [("add", PyBool true)])])
     <> derived_field_names (Some [("parent", [("add", PyBool true)])]).
Proof.
  split; [reflexivity |]. split; [reflexivity |]. discriminate.
Qed.

(* ================================================================= *)
(** * Input-field builders: proofs *)

Lemma is_skipped_passes (only_fields exclude_fields : list string) (name : string) :
  is_skipped only_fields exclude_fields name = false
  <-> passes_filtering only_fields exclude_fields name.
Proof.
  unfold is_skipped, passes_filtering.
  rewrite !orb_false_iff, name_in_not_In.
  destruct only_fields as [| o os]; cbn [List.length Nat.eqb negb andb].
  - intuition.
  - rewrite negb_false_iff, name_in_In. intuition discriminate.
Qed.

Lemma fold_left_ext_in {A B : Type} (f g : A -> B -> A) (l : list B) (a : A) :
  (forall st x, In x l -> f st x = g st x) ->
  fold_left f l a = fold_left g l a.
Proof.
  revert a. induction l as [| x rest IH]; intros a Hext; cbn.
  - reflexivity.
  - rewrite (Hext a x) by now left.
    apply IH. intros st y Hy. apply Hext. now right.
Qed.

Section BuilderFacts.

Context {InputType Registry : Type}.
Variable registry : Registry.
Variable convert_field :
  django_field -> Registry -> option bool -> pyval -> pyval -> option InputType.
Variables only_fields exclude_fields optional_fields required_fields : list string.
Variable many_to_many_extras : extras_config.
Variable foreign_key_extras : pydict pyval.

Let step :=
  input_fields_step convert_field registry only_fields exclude_fields
    optional_fields required_fields many_to_many_extras foreign_key_extras.

Lemma input_fields_step_cases (st : builder_state InputType) (name : string)
  (field : django_field) :
  step st (name, field)
  = if primary_key field then st
    else if is_skipped only_fields exclude_fields name
         then (fst st, dict_set name field (snd st))
         else (dict_set name
                 (convert_field field registry
                    (if name_in name optional_fields then Some false
                     else if name_in name required_fields then Some true
                     else None)
                    (dict_get_or_none "exact"
                       (dict_get_or_empty name many_to_many_extras))
                    (dict_get_or_empty_dict name foreign_key_extras))
                 (fst st),
               dict_set name field (snd st)).
Proof.
  destruct st as [fields fields_lookup]. reflexivity.
Qed.

Lemma step_fields_keys (st : builder_state InputType) (name : string)
  (field : django_field) (k : string) :
  In k (dict_keys (fst (step st (name, field))))
  <-> In k (dict_keys (fst st))
      \/ (k = name /\ primary_key field = false
          /\ passes_filtering only_fields exclude_fields name).
Proof.
  rewrite input_fields_step_cases, <- is_skipped_passes.
  destruct (primary_key field);
    [| destruct (is_skipped only_fields exclude_fields name)];
    cbn [fst snd]; try rewrite dict_keys_set; intuition discriminate.
Qed.

Lemma step_lookup_keys (st : builder_state InputType) (name : string)
  (field : django_field) (k : string) :
  In k (dict_keys (snd (step st (name, field))))
  <-> In k (dict_keys (snd st)) \/ (k = name /\ primary_key field = false).
Proof.
  rewrite input_fields_step_cases.
  destruct (primary_key field);
    [| destruct (is_skipped only_fields exclude_fields name)];
    cbn [fst snd]; try rewrite dict_keys_set; intuition discriminate.
Qed.

Lemma base_fields_keys (l : list (string * django_field)) (st : builder_state InputType)
  (k : string) :
  In k (dict_keys (fst (fold_left step l st)))
  <-> In k (dict_keys (fst st))
      \/ (exists field,
             In (k, field) l /\ primary_key field = false
             /\ passes_filtering only_fields exclude_fields k).
Proof.
  revert st. induction l as [| [name field] rest IH]; intros st; cbn [fold_left].
  - split; [now left | intros [H | (f & [] & _)]; exact H].
  - rewrite IH, step_fields_keys. split.
    + intros [[H | (-> & Hpk & Hpass)] | (f & Hin & Hpk & Hpass)].
      * now left.
      * right. exists field. split; [now left | split; assumption].
      * right. exists f. split; [now right | split; assumption].
    + intros [H | (f & [Heq | Hin] & Hpk & Hpass)].
      * left. now left.
      * injection Heq as -> ->. left. right.
        split; [reflexivity | split; assumption].
      * right. exists f. split; [exact Hin | split; assumption].
Qed.

Lemma base_lookup_keys (l : list (string * django_field)) (st : builder_state InputType)
  (k : string) :
  In k (dict_keys (snd (fold_left step l st)))
  <-> In k (dict_keys (snd st))
      \/ (exists field, In (k, field) l /\ primary_key field = false).
Proof.
  revert st. induction l as [| [name field] rest IH]; intros st; cbn [fold_left].
  - split; [now left | intros [H | (f & [] & _)]; exact H].
  - rewrite IH, step_lookup_keys. split.
    + intros [[H | (-> & Hpk)] | (f & Hin & Hpk)].
      * now left.
      * right. exists field. split; [now left | exact Hpk].
      * right. exists f. split; [now right | exact Hpk].
    + intros [H | (f & [Heq | Hin] & Hpk)].
      * left. now left.
      * injection Heq as -> ->. left. right. now split.
      * right. exists f. now split.
Qed.

Lemma base_fields_frame (l : list (string * django_field))
  (st : builder_state InputType) (name : string) :
  ~ In name (map fst l) ->
  dict_get name (fst (fold_left step l st)) = dict_get name (fst st).
Proof.
  revert st. induction l as [| [n f] rest IH]; intros st Hout; cbn [fold_left].
  - reflexivity.
  - cbn in Hout. rewrite IH by (intros H; apply Hout; now right).
    rewrite input_fields_step_cases.
    destruct (primary_key f); [reflexivity |].
    destruct (is_skipped only_fields exclude_fields n); [reflexivity |].
    cbn [fst]. apply dict_get_set_other. intros ->. apply Hout. now left.
Qed.

Lemma base_fields_value (l : list (string * django_field))
  (st : builder_state InputType) (name : string) (field : django_field) :
  NoDup (map fst l) ->
  In (name, field) l ->
  primary_key field = false ->
  is_skipped only_fields exclude_fields name = false ->
  dict_get name (fst (fold_left step l st))
  = Some (convert_field field registry
            (if name_in name optional_fields then Some false
             else if name_in name required_fields then Some true
             else None)
            (dict_get_or_none "exact"
               (dict_get_or_empty name many_to_many_extras))
            (dict_get_or_empty_dict name foreign_key_extras)).
Proof.
  revert st. induction l as [| [n f] rest IH]; intros st Hnodup Hin Hpk Hskip.
  - destruct Hin.
  - cbn in Hnodup. inversion Hnodup as [| ? ? Hfresh Hrest]; subst.
    cbn [fold_left]. destruct Hin as [Heq | Hin].
    + injection Heq as -> ->.
      rewrite base_fields_frame by exact Hfresh.
      rewrite input_fields_step_cases, Hpk, Hskip. cbn [fst].
      apply dict_get_set_same.
    + now apply IH.
Qed.

Variable model : django_model.

(** The fields saved for the extras are the reflected non-primary-key ones. *)
Lemma base_lookup_reflected (name : string) :
  In name
    (dict_keys
       (snd (input_fields_base convert_field registry (get_model_fields model)
               only_fields exclude_fields optional_fields required_fields
               many_to_many_extras foreign_key_extras)))
  <-> reflected model name.
Proof.
  unfold input_fields_base. fold step. rewrite base_lookup_keys. cbn.
  unfold reflected. tauto.
Qed.

(** The base pass stores the reflected non-primary-key fields that pass. *)
Lemma base_fields_base_key (name : string) :
  In name
    (dict_keys
       (fst (input_fields_base convert_field registry (get_model_fields model)
               only_fields exclude_fields optional_fields required_fields
               many_to_many_extras foreign_key_extras)))
  <-> base_key model only_fields exclude_fields name.
Proof.
  unfold input_fields_base. fold step. rewrite base_fields_keys. cbn.
  unfold base_key, reflected. split.
  - intros [[] | (f & Hin & Hpk & Hpass)]. split; [now exists f | exact Hpass].
  - intros [(f & Hin & Hpk) Hpass]. right. now exists f.
Qed.

Variable convert_m2m :
  django_field -> Registry -> option bool -> pyval -> pyval -> option InputType.

Lemma extras_of_keys (name : string) (field : django_field)
  (extras : pydict pyval) (fields fields' : pydict (option InputType)) :
  input_fields_extras_of convert_m2m registry name field extras fields
  = Return fields' ->
  forall k,
    In k (dict_keys fields')
    <-> In k (dict_keys fields)
        \/ (exists op data,
               In (op, data) extras /\ op <> "exact" /\ k = name ++ "_" ++ op).
Proof.
  revert fields. induction extras as [| [op data] rest IH]; intros fields Hrun k.
  - cbn in Hrun. injection Hrun as <-.
    split; [now left | intros [H | (o & d & [] & _)]; exact H].
  - cbn [input_fields_extras_of] in Hrun.
    destruct (String.eqb_spec op "exact") as [-> | Hop].
    + rewrite (IH _ Hrun). split.
      * intros [H | (o & d & Hin & Hne & Hk)]; [now left |].
        right. exists o, d. split; [now right | now split].
      * intros [H | (o & d & [Heq | Hin] & Hne & Hk)]; [now left | |].
        -- injection Heq as <- <-. now elim Hne.
        -- right. exists o, d. now repeat split.
    + destruct (extra_data_config data) as [cfg | e]; [| discriminate Hrun].
      cbn [bind] in Hrun.
      destruct (match convert_m2m field registry (Some false) cfg PyNone with
                | Some t => Return (Some t)
                | None => dict_getitem name fields
                end) as [_field | e]; [| discriminate Hrun].
      cbn [bind] in Hrun.
      rewrite (IH _ Hrun), dict_keys_set. split.
      * intros [[-> | H] | (o & d & Hin & Hne & Hk)].
        -- right. exists op, data. split; [now left | now split].
        -- now left.
        -- right. exists o, d. split; [now right | now split].
      * intros [H | (o & d & [Heq | Hin] & Hne & Hk)].
        -- left. now right.
        -- injection Heq as <- <-. left. now left.
        -- right. exists o, d. now repeat split.
Qed.

Lemma extras_keys (entries : extras_config)
  (fields_lookup : pydict django_field)
  (fields fields' : pydict (option InputType)) :
  input_fields_extras convert_m2m registry model entries fields_lookup fields
  = Return fields' ->
  (forall name extras,
      In (name, extras) entries -> In name (dict_keys fields_lookup))
  /\ (forall k,
         In k (dict_keys fields')
         <-> In k (dict_keys fields)
             \/ (exists name extras op data,
                    In (name, extras) entries
                    /\ In (op, data) extras
                    /\ op <> "exact"
                    /\ k = name ++ "_" ++ op)).
Proof.
  revert fields. induction entries as [| [name extras] rest IH];
    intros fields Hrun.
  - cbn in Hrun. injection Hrun as <-. split.
    + intros n e [].
    + intros k. split; [now left | intros [H | (n & e & o & d & [] & _)]; exact H].
  - cbn [input_fields_extras] in Hrun.
    destruct (dict_get name fields_lookup) as [field |] eqn:Hget;
      [| discriminate Hrun].
    destruct (input_fields_extras_of convert_m2m registry name field extras fields)
      as [fields1 | e] eqn:Hof; [| discriminate Hrun].
    cbn [bind] in Hrun.
    destruct (IH _ Hrun) as [Hnames Hkeys]. split.
    + intros n e [Heq | Hin].
      * injection Heq as <- <-. exact (dict_get_some_keys _ _ _ Hget).
      * exact (Hnames _ _ Hin).
    + intros k. rewrite Hkeys, (extras_of_keys _ _ _ _ _ Hof). split.
      * intros [[H | (o & d & Hin & Hne & Hk)] | (n & e & o & d & Hin & Hrest)].
        -- now left.
        -- right. exists name, extras, o, d. split; [now left | now repeat split].
        -- right. exists n, e, o, d. split; [now right | exact Hrest].
      * intros [H | (n & e & o & d & [Heq | Hin] & Hop & Hne & Hk)].
        -- left. now left.
        -- injection Heq as <- <-. left. right. exists o, d. now repeat split.
        -- right. exists n, e, o, d. now repeat split.
Qed.

Lemma extras_of_frame (name : string) (field : django_field)
  (extras : pydict pyval) (fields fields' : pydict (option InputType))
  (k : string) :
  input_fields_extras_of convert_m2m registry name field extras fields
  = Return fields' ->
  (forall op data,
      In (op, data) extras -> op <> "exact" -> k <> name ++ "_" ++ op) ->
  dict_get k fields' = dict_get k fields.
Proof.
  revert fields. induction extras as [| [op data] rest IH];
    intros fields Hrun Hfresh.
  - cbn in Hrun. now injection Hrun as <-.
  - cbn [input_fields_extras_of] in Hrun.
    assert (Hrest : forall o d,
               In (o, d) rest -> o <> "exact" -> k <> name ++ "_" ++ o).
    { intros o d Hin. apply (Hfresh o d). now right. }
    destruct (String.eqb_spec op "exact") as [-> | Hop].
    + exact (IH _ Hrun Hrest).
    + destruct (extra_data_config data) as [cfg | e]; [| discriminate Hrun].
      cbn [bind] in Hrun.
      destruct (match convert_m2m field registry (Some false) cfg PyNone with
                | Some t => Return (Some t)
                | None => dict_getitem name fields
                end) as [_field | e]; [| discriminate Hrun].
      cbn [bind] in Hrun.
      rewrite (IH _ Hrun Hrest). apply dict_get_set_other.
      apply (Hfresh op data); [now left | exact Hop].
Qed.

Lemma extras_frame (entries : extras_config)
  (fields_lookup : pydict django_field)
  (fields fields' : pydict (option InputType)) (k : string) :
  input_fields_extras convert_m2m registry model entries fields_lookup fields
  = Return fields' ->
  (forall name extras op data,
      In (name, extras) entries -> In (op, data) extras -> op <> "exact" ->
      k <> name ++ "_" ++ op) ->
  dict_get k fields' = dict_get k fields.
Proof.
  revert fields. induction entries as [| [name extras] rest IH];
    intros fields Hrun Hfresh.
  - cbn in Hrun. now injection Hrun as <-.
  - cbn [input_fields_extras] in Hrun.
    destruct (dict_get name fields_lookup) as [field |]; [| discriminate Hrun].
    destruct (input_fields_extras_of convert_m2m registry name field extras fields)
      as [fields1 | e] eqn:Hof; [| discriminate Hrun].
    cbn [bind] in Hrun.
    rewrite (IH _ Hrun).
    + apply (extras_of_frame _ _ _ _ _ _ Hof).
      intros op data. apply Hfresh. now left.
    + intros n e o d Hin. apply Hfresh. now right.
Qed.

(** An entry whose base field is in the mapping and whose operations carry
    booleans or dicts is processed without failure. *)
Lemma extras_of_succeeds (name : string) (field : django_field)
  (extras : pydict pyval) (fields : pydict (option InputType)) :
  In name (dict_keys fields) ->
  (forall op data,
      In (op, data) extras -> op <> "exact" -> is_config_value data = true) ->
  exists fields',
    input_fields_extras_of convert_m2m registry name field extras fields
    = Return fields'.
Proof.
  revert fields. induction extras as [| [op data] rest IH];
    intros fields Hbase Hvalues.
  - now eexists.
  - cbn [input_fields_extras_of].
    assert (Hrest : forall o d,
               In (o, d) rest -> o <> "exact" -> is_config_value d = true).
    { intros o d Hin. apply (Hvalues o d). now right. }
    destruct (String.eqb_spec op "exact") as [-> | Hop]; [now apply IH |].
    assert (Hdata : exists cfg, extra_data_config data = Return cfg).
    { specialize (Hvalues op data (or_introl eq_refl) Hop).
      destruct data; try discriminate Hvalues; now eexists. }
    destruct Hdata as [cfg ->]. cbn [bind].
    assert (Hfield : exists _field,
               match convert_m2m field registry (Some false) cfg PyNone with
               | Some t => Return (Some t)
               | None => dict_getitem name fields
               end = Return _field).
    { destruct (convert_m2m field registry (Some false) cfg PyNone);
        [now eexists |].
      unfold dict_getitem. destruct (dict_get name fields) eqn:Hget;
        [now eexists |].
      apply dict_get_none_keys in Hget. contradiction. }
    destruct Hfield as [_field ->]. cbn [bind].
    apply IH; [| exact Hrest]. apply dict_keys_set. now right.
Qed.

Lemma extras_succeed (entries : extras_config)
  (fields_lookup : pydict django_field) (fields : pydict (option InputType)) :
  (forall name extras,
      In (name, extras) entries ->
      In name (dict_keys fields_lookup)
      /\ In name (dict_keys fields)
      /\ (forall op data,
             In (op, data) extras -> op <> "exact" ->
             is_config_value data = true)) ->
  exists fields',
    input_fields_extras convert_m2m registry model entries fields_lookup fields
    = Return fields'.
Proof.
  revert fields. induction entries as [| [name extras] rest IH];
    intros fields Hsound.
  - now eexists.
  - cbn [input_fields_extras].
    destruct (Hsound name extras (or_introl eq_refl)) as (Hlookup & Hbase & Hvalues).
    destruct (dict_get name fields_lookup) as [field |] eqn:Hget.
    2:{ apply dict_get_none_keys in Hget. contradiction. }
    destruct (extras_of_succeeds name field extras fields Hbase Hvalues)
      as [fields1 Hof].
    rewrite Hof. cbn [bind]. apply IH.
    intros n e Hin. destruct (Hsound n e (or_intror Hin)) as (Hl & Hb & Hv).
    split; [exact Hl |]. split; [| exact Hv].
    apply (extras_of_keys _ _ _ _ _ Hof). now left.
Qed.

Lemma extras_app (pre post : extras_config)
  (fields_lookup : pydict django_field) (fields : pydict (option InputType)) :
  input_fields_extras convert_m2m registry model (pre ++ post)%list fields_lookup fields
  = bind (input_fields_extras convert_m2m registry model pre fields_lookup fields)
         (input_fields_extras convert_m2m registry model post fields_lookup).
Proof.
  revert fields. induction pre as [| [name extras] rest IH]; intros fields.
  - reflexivity.
  - cbn [app input_fields_extras].
    destruct (dict_get name fields_lookup) as [field |]; [| reflexivity].
    destruct (input_fields_extras_of convert_m2m registry name field extras fields)
      as [fields1 | e]; [| reflexivity].
    cbn [bind]. apply IH.
Qed.

End BuilderFacts.

Section BuilderTheorems.

Context {InputType Registry : Type}.
Variable registry : Registry.
Variable convert_field :
  django_field -> Registry -> option bool -> pyval -> pyval -> option InputType.
Variable convert_m2m :
  django_field -> Registry -> option bool -> pyval -> pyval -> option InputType.

(** The builder is its second loop run on what its first loop leaves. *)
Lemma get_input_fields_for_model_loops
  (model : django_model)
  (only_fields exclude_fields optional_fields required_fields : list string)
  (many_to_many_extras : option extras_config)
  (foreign_key_extras : option (pydict pyval)) :
  get_input_fields_for_model registry convert_field convert_m2m model
    only_fields exclude_fields optional_fields required_fields
    many_to_many_extras foreign_key_extras
  = let base :=
      input_fields_base convert_field registry (get_model_fields model)
        only_fields exclude_fields optional_fields required_fields
        (extras_or_empty many_to_many_extras)
        (extras_or_empty foreign_key_extras) in
    input_fields_extras convert_m2m registry model
      (extras_or_empty many_to_many_extras) (snd base) (fst base).
Proof.
  unfold get_input_fields_for_model. cbv zeta.
  now destruct (input_fields_base _ _ _ _ _ _ _ _ _).
Qed.

(** C2 (as amended).  The keys of the mapping [get_input_fields_for_model]
    returns are exactly these: the names of the reflected fields that are
    not the primary key and passed the only / exclude / no-backref
    filtering; and the keys made of the name of a reflected field that is
    not the primary key, filtered out or not, an underscore, and an
    operation other than "exact" that the many-to-many extras declare for
    that field.  So a model with the fields id (primary key), name and
    parent, with nothing in the only and exclude lists and no extras, gives
    the keys name and parent. *)
Theorem input_field_keys :
  (forall model only_fields exclude_fields optional_fields required_fields
          many_to_many_extras foreign_key_extras fields key,
      get_input_fields_for_model registry convert_field convert_m2m model
        only_fields exclude_fields optional_fields required_fields
        many_to_many_extras foreign_key_extras
      = Return fields ->
      (In key (dict_keys fields)
       <-> base_key model only_fields exclude_fields key
           \/ extras_key (reflected model)
                (extras_or_empty many_to_many_extras) key))
  /\ (forall model_name f_id f_name f_parent
             optional_fields required_fields foreign_key_extras,
         primary_key f_id = true ->
         primary_key f_name = false ->
         primary_key f_parent = false ->
         exists fields,
           get_input_fields_for_model registry convert_field convert_m2m
             (mkModel model_name
                [("id", f_id); ("name", f_name); ("parent", f_parent)])
             [] [] optional_fields required_fields None foreign_key_extras
           = Return fields
           /\ dict_keys fields = ["name"; "parent"]).
Proof.
  split.
  - intros model only_fields exclude_fields optional_fields required_fields
      many_to_many_extras foreign_key_extras fields key.
    rewrite get_input_fields_for_model_loops. cbv zeta. intros Hrun.
    apply extras_keys in Hrun as [Hnames Hkeys].
    rewrite Hkeys, base_fields_base_key. split.
    + intros [Hbase | (name & extras & op & data & Hin & Hrest)];
        [now left | right].
      exists name, extras, op, data. split; [| exact (conj Hin Hrest)].
      apply Hnames in Hin. now apply base_lookup_reflected in Hin.
    + intros [Hbase | (name & extras & op & data & _ & Hrest)];
        [now left | right].
      now exists name, extras, op, data.
  - intros model_name f_id f_name f_parent optional_fields required_fields
      foreign_key_extras Hid Hname Hparent.
    eexists. split.
    + unfold get_input_fields_for_model, input_fields_base, get_model_fields.
      cbn. rewrite Hid. cbn. rewrite Hname. cbn. rewrite Hparent. cbn.
      reflexivity.
    + reflexivity.
Qed.

(** The schema error is raised at the first entry whose field is missing,
    provided the loop gets there. *)
Lemma schema_error_when_reached
  (model : django_model)
  (only_fields exclude_fields optional_fields required_fields : list string)
  (many_to_many_extras : option extras_config)
  (foreign_key_extras : option (pydict pyval))
  (pre : extras_config) (name : string) (extras : pydict pyval)
  (post : extras_config) (fields' : pydict (option InputType)) :
  extras_or_empty many_to_many_extras = (pre ++ (name, extras) :: post)%list ->
  ~ reflected model name ->
  (let base :=
     input_fields_base convert_field registry (get_model_fields model)
       only_fields exclude_fields optional_fields required_fields
       (extras_or_empty many_to_many_extras)
       (extras_or_empty foreign_key_extras) in
   input_fields_extras convert_m2m registry model pre (snd base) (fst base))
  = Return fields' ->
  get_input_fields_for_model registry convert_field convert_m2m model
    only_fields exclude_fields optional_fields required_fields
    many_to_many_extras foreign_key_extras
  = Raise (GraphQLError (extras_error_message name model)).
Proof.
  cbv zeta. intros Hsplit Hmissing Hpre.
  rewrite get_input_fields_for_model_loops. cbv zeta.
  rewrite Hsplit in *. rewrite extras_app, Hpre. cbn [bind input_fields_extras].
  destruct (dict_get name _) as [field |] eqn:Hget; [| reflexivity].
  apply dict_get_some_keys in Hget.
  now apply base_lookup_reflected in Hget.
Qed.

(** In particular the loop gets there when every earlier entry names a field
    that passed the filtering and gives its operations booleans or dicts. *)
Corollary schema_error_after_sound_entries
  (model : django_model)
  (only_fields exclude_fields optional_fields required_fields : list string)
  (many_to_many_extras : option extras_config)
  (foreign_key_extras : option (pydict pyval))
  (pre : extras_config) (name : string) (extras : pydict pyval)
  (post : extras_config) :
  extras_or_empty many_to_many_extras = (pre ++ (name, extras) :: post)%list ->
  ~ reflected model name ->
  (forall n e,
      In (n, e) pre ->
      base_key model only_fields exclude_fields n
      /\ (forall op data,
             In (op, data) e -> op <> "exact" -> is_config_value data = true)) ->
  get_input_fields_for_model registry convert_field convert_m2m model
    only_fields exclude_fields optional_fields required_fields
    many_to_many_extras foreign_key_extras
  = Raise (GraphQLError (extras_error_message name model)).
Proof.
  intros Hsplit Hmissing Hsound.
  destruct (extras_succeed registry model convert_m2m pre
              (snd (input_fields_base convert_field registry
                      (get_model_fields model) only_fields exclude_fields
                      optional_fields required_fields
                      (extras_or_empty many_to_many_extras)
                      (extras_or_empty foreign_key_extras)))
              (fst (input_fields_base convert_field registry
                      (get_model_fields model) only_fields exclude_fields
                      optional_fields required_fields
                      (extras_or_empty many_to_many_extras)
                      (extras_or_empty foreign_key_extras))))
    as [fields' Hpre].
  - intros n e Hin. destruct (Hsound n e Hin) as [[Hreflected Hpasses] Hvalues].
    split; [now apply base_lookup_reflected |].
    split; [| exact Hvalues].
    apply base_fields_base_key. split; assumption.
  - exact (schema_error_when_reached _ _ _ _ _ _ _ _ _ _ _ _
             Hsplit Hmissing Hpre).
Qed.


(** C8.  For a reflected field that is not the primary key and is not
    skipped, names being distinct, [get_input_fields_for_model] converts the
    field with this tri-state: False when the name is in [optional_fields];
    else True when it is in [required_fields]; else None; so a name in both
    lists gets False.  The conversion with that tri-state is what the first
    loop stores under the name, and what the returned mapping holds there
    unless an extras key with the same spelling replaced it. *)
Theorem required_tristate
  (model : django_model)
  (only_fields exclude_fields optional_fields required_fields : list string)
  (many_to_many_extras : option extras_config)
  (foreign_key_extras : option (pydict pyval))
  (name : string) (field : django_field) :
  NoDup (map fst (get_model_fields model)) ->
  In (name, field) (get_model_fields model) ->
  primary_key field = false ->
  passes_filtering only_fields exclude_fields name ->
  exists required,
    (In name optional_fields -> required = Some false)
    /\ (~ In name optional_fields -> In name required_fields ->
        required = Some true)
    /\ (~ In name optional_fields -> ~ In name required_fields ->
        required = None)
    /\ dict_get name
         (fst (input_fields_base convert_field registry (get_model_fields model)
                 only_fields exclude_fields optional_fields required_fields
                 (extras_or_empty many_to_many_extras)
                 (extras_or_empty foreign_key_extras)))
       = Some (convert_field field registry required
                 (dict_get_or_none "exact"
                    (dict_get_or_empty name (extras_or_empty many_to_many_extras)))
                 (dict_get_or_empty_dict name (extras_or_empty foreign_key_extras)))
    /\ (forall fields,
           get_input_fields_for_model registry convert_field convert_m2m model
             only_fields exclude_fields optional_fields required_fields
             many_to_many_extras foreign_key_extras
           = Return fields ->
           ~ extras_key (reflected model) (extras_or_empty many_to_many_extras)
               name ->
           dict_get name fields
           = Some (convert_field field registry required
                     (dict_get_or_none "exact"
                        (dict_get_or_empty name
                           (extras_or_empty many_to_many_extras)))
                     (dict_get_or_empty_dict name
                        (extras_or_empty foreign_key_extras)))).
Proof.
  intros Hnodup Hin Hpk Hpasses.
  apply is_skipped_passes in Hpasses.
  assert (Hbase :
            dict_get name
              (fst (input_fields_base convert_field registry
                      (get_model_fields model)
                      only_fields exclude_fields optional_fields required_fields
                      (extras_or_empty many_to_many_extras)
                      (extras_or_empty foreign_key_extras)))
            = Some (convert_field field registry
                      (if name_in name optional_fields then Some false
                       else if name_in name required_fields then Some true
                       else None)
                      (dict_get_or_none "exact"
                         (dict_get_or_empty name
                            (extras_or_empty many_to_many_extras)))
                      (dict_get_or_empty_dict name
                         (extras_or_empty foreign_key_extras)))).
  { unfold input_fields_base. now apply base_fields_value. }
  eexists. split; [| split; [| split; [| split]]].
  4: exact Hbase.
  - intros Hopt. apply name_in_In in Hopt. now rewrite Hopt.
  - intros Hopt Hreq. apply name_in_not_In in Hopt. apply name_in_In in Hreq.
    now rewrite Hopt, Hreq.
  - intros Hopt Hreq. apply name_in_not_In in Hopt, Hreq.
    now rewrite Hopt, Hreq.
  - intros fields Hrun Hfresh.
    rewrite get_input_fields_for_model_loops in Hrun. cbv zeta in Hrun.
    rewrite <- Hbase.
    eapply extras_frame; [exact Hrun |].
    intros n e o d Hentry Hop Hne Heq. apply Hfresh.
    exists n, e, o, d. split; [| now repeat split].
    apply extras_keys in Hrun as [Hnames _].
    apply Hnames in Hentry. now apply base_lookup_reflected in Hentry.
Qed.

Lemma all_optional_extras_of_same (name : string) (field : django_field)
  (extras : pydict pyval) (fields : pydict (option InputType)) :
  all_optional_extras_of convert_m2m registry name field extras fields
  = input_fields_extras_of convert_m2m registry name field extras fields.
Proof.
  revert fields. induction extras as [| [op data] rest IH]; intros fields.
  - reflexivity.
  - cbn [all_optional_extras_of input_fields_extras_of].
    destruct (String.eqb op "exact"); [apply IH |].
    destruct (extra_data_config data) as [cfg | e]; [| reflexivity].
    cbn [bind].
    destruct (match convert_m2m field registry (Some false) cfg PyNone with
              | Some t => Return (Some t)
              | None => dict_getitem name fields
              end) as [_field | e]; [| reflexivity].
    cbn [bind]. apply IH.
Qed.

Lemma all_optional_extras_same (model : django_model) (entries : extras_config)
  (fields_lookup : pydict django_field) (fields : pydict (option InputType)) :
  all_optional_extras convert_m2m registry model entries fields_lookup fields
  = input_fields_extras convert_m2m registry model entries fields_lookup fields.
Proof.
  revert fields. induction entries as [| [name extras] rest IH]; intros fields.
  - reflexivity.
  - cbn [all_optional_extras input_fields_extras].
    destruct (dict_get name fields_lookup) as [field |]; [| reflexivity].
    rewrite all_optional_extras_of_same.
    destruct (input_fields_extras_of convert_m2m registry name field extras fields)
      as [fields1 | e]; [| reflexivity].
    cbn [bind]. apply IH.
Qed.

Lemma all_optional_step_same
  (only_fields exclude_fields optional_fields required_fields : list string)
  (many_to_many_extras : extras_config) (foreign_key_extras : pydict pyval)
  (st : builder_state InputType) (item : string * django_field) :
  (primary_key (snd item) = false ->
   is_skipped only_fields exclude_fields (fst item) = false ->
   In (fst item) optional_fields) ->
  all_optional_step convert_field registry only_fields exclude_fields
    many_to_many_extras foreign_key_extras st item
  = input_fields_step convert_field registry only_fields exclude_fields
      optional_fields required_fields many_to_many_extras foreign_key_extras
      st item.
Proof.
  destruct st as [fields fields_lookup], item as [name field]. cbn [fst snd].
  intros Hopt. unfold all_optional_step, input_fields_step.
  destruct (primary_key field); [reflexivity |].
  fold (is_skipped only_fields exclude_fields name).
  destruct (is_skipped only_fields exclude_fields name); [reflexivity |].
  rewrite (proj2 (name_in_In name optional_fields) (Hopt eq_refl eq_refl)).
  reflexivity.
Qed.

(** C9.  [get_all_optional_input_fields_for_model] returns what
    [get_input_fields_for_model] returns on the same model, only / exclude
    lists and extras when [optional_fields] holds the name of every field
    that is converted, whatever [required_fields] is: the same mapping, or
    the same failure. *)
Theorem all_optional_is_forced_optional
  (model : django_model)
  (only_fields exclude_fields optional_fields required_fields : list string)
  (many_to_many_extras : option extras_config)
  (foreign_key_extras : option (pydict pyval)) :
  (forall name field,
      In (name, field) (get_model_fields model) ->
      primary_key field = false ->
      passes_filtering only_fields exclude_fields name ->
      In name optional_fields) ->
  get_all_optional_input_fields_for_model registry convert_field convert_m2m
    model only_fields exclude_fields many_to_many_extras foreign_key_extras
  = get_input_fields_for_model registry convert_field convert_m2m model
      only_fields exclude_fields optional_fields required_fields
      many_to_many_extras foreign_key_extras.
Proof.
  intros Hopt.
  unfold get_all_optional_input_fields_for_model, get_input_fields_for_model.
  cbv zeta. unfold all_optional_base, input_fields_base.
  rewrite (fold_left_ext_in
             (all_optional_step convert_field registry only_fields exclude_fields
                (extras_or_empty many_to_many_extras)
                (extras_or_empty foreign_key_extras))
             (input_fields_step convert_field registry only_fields exclude_fields
                optional_fields required_fields
                (extras_or_empty many_to_many_extras)
                (extras_or_empty foreign_key_extras))).
  - destruct (fold_left _ _ _) as [fields fields_lookup].
    apply all_optional_extras_same.
  - intros st [name field] Hin. apply all_optional_step_same. cbn [fst snd].
    intros Hpk Hskip. apply (Hopt name field Hin Hpk).
    now apply is_skipped_passes.
Qed.

End BuilderTheorems.

(* ================================================================= *)
(** * Input-field builders: the properties on the sample model *)


Lemma tags_is_reflected : reflected sample_model "tags".
Proof.
  exists (mkField "ManyToManyField" false). split; [| reflexivity].
  cbn. do 3 right. now left.
Qed.

Lemma tags_add_is_not_reflected : ~ reflected sample_model "tags_add".
Proof.
  intros (field & Hin & _). cbn in Hin.
  repeat (destruct Hin as [Hin | Hin]; [discriminate Hin |]). exact Hin.
Qed.

Lemma input_field_keys_witness :
  (In "tags_add"
     (dict_keys [("name", Some "CharField"); ("parent", Some "ForeignKey");
                 ("tags", Some "ManyToManyField");
                 ("tags_add", Some "ManyToManyField")])
   <-> base_key sample_model [] [] "tags_add"
       \/ extras_key (reflected sample_model)
            [("tags", [("exact", PyBool true); ("add", PyBool true)])]
            "tags_add")
  /\ (exists fields,
         get_input_fields_for_model tt sample_convert_field sample_convert_m2m
           (mkModel "<class 'Node'>"
              [("id", mkField "AutoField" true);
               ("name", mkField "CharField" false);
               ("parent", mkField "ForeignKey" false)])
           [] [] [] [] None None
         = Return fields
         /\ dict_keys fields = ["name"; "parent"]).
Proof.
  destruct (input_field_keys tt sample_convert_field sample_convert_m2m)
    as [Hkeys Hexample].
  split.
  - apply (Hkeys sample_model [] [] [] []
             (Some [("tags", [("exact", PyBool true); ("add", PyBool true)])])
             None).
    reflexivity.
  - apply Hexample; reflexivity.
Defined.

(** C2, as the specification states it, fails when the field of an extras
    entry is excluded: with "tags" in [exclude_fields] and the operation
    "add" declared for it, the mapping has the key "tags_add", which is no
    field name and whose base name did not pass the filtering. *)
Lemma extras_key_of_excluded_field :
  get_input_fields_for_model tt sample_convert_field sample_convert_m2m
    sample_model [] ["tags"] [] []
    (Some [("tags", [("add", PyDict [("type", PyStr "ID")])])]) None
  = Return [("name", Some "CharField"); ("parent", Some "ForeignKey");
            ("tags_add", Some "[ID]")]
  /\ ~ (base_key sample_model [] ["tags"] "tags_add"
        \/ extras_key (base_key sample_model [] ["tags"])
             [("tags", [("add", PyDict [("type", PyStr "ID")])])] "tags_add").
Proof.
  split; [reflexivity |].
  intros [[Hreflected _] | (name & extras & op & data & Hbase & Hin & _)].
  - exact (tags_add_is_not_reflected Hreflected).
  - destruct Hin as [Heq | []]. injection Heq as <- <-.
    destruct Hbase as [_ (_ & Hexcluded & _)]. apply Hexcluded. now left.
Qed.



Lemma required_tristate_witness :
  exists required,
    (In "name" ["name"] -> required = Some false)
    /\ (~ In "name" ["name"] -> In "name" ["name"; "parent"] ->
        required = Some true)
    /\ (~ In "name" ["name"] -> ~ In "name" ["name"; "parent"] ->
        required = None)
    /\ dict_get "name"
         (fst (input_fields_base sample_convert_field tt
                 (get_model_fields sample_model) [] []
                 ["name"] ["name"; "parent"] [] []))
       = Some (sample_convert_field (mkField "CharField" false) tt required
                 (dict_get_or_none "exact" (dict_get_or_empty "name" []))
                 (dict_get_or_empty_dict "name" []))
    /\ (forall fields,
           get_input_fields_for_model tt sample_convert_field
             sample_convert_m2m sample_model [] []
             ["name"] ["name"; "parent"] None None
           = Return fields ->
           ~ extras_key (reflected sample_model) [] "name" ->
           dict_get "name" fields
           = Some (sample_convert_field (mkField "CharField" false) tt required
                     (dict_get_or_none "exact" (dict_get_or_empty "name" []))
                     (dict_get_or_empty_dict "name" []))).
Proof.
  apply (required_tristate tt sample_convert_field sample_convert_m2m
           sample_model [] [] ["name"] ["name"; "parent"]
           None None "name" (mkField "CharField" false)).
  - cbn. repeat (constructor; [cbn; intuition discriminate |]). constructor.
  - cbn. right. now left.
  - reflexivity.
  - split; [now left |]. split; [intros [] | reflexivity].
Defined.

Lemma all_optional_is_forced_optional_witness :
  get_all_optional_input_fields_for_model tt sample_convert_field
    sample_convert_m2m sample_model [] ["parent"]
    (Some [("tags", [("add", PyBool true)])]) None
  = get_input_fields_for_model tt sample_convert_field sample_convert_m2m
      sample_model [] ["parent"] ["name"; "tags"] ["name"]
      (Some [("tags", [("add", PyBool true)])]) None.
Proof.
  apply (all_optional_is_forced_optional tt sample_convert_field
           sample_convert_m2m sample_model [] ["parent"] ["name"; "tags"]
           ["name"]).
  intros name field Hin Hpk (_ & Hexcluded & _). cbn in Hin.
  destruct Hin as [Heq | [Heq | [Heq | [Heq | []]]]]; injection Heq as <- <-.
  - discriminate Hpk.
  - now left.
  - elim Hexcluded. now left.
  - right. now left.
Defined.

(* ================================================================= *)
(** * Further properties of the module *)

(** ** Operation aliases *)

Lemma lower_char_idempotent (c : ascii) : lower_char (lower_char c) = lower_char c.
Proof.
  destruct c as [[] [] [] [] [] [] [] []]; reflexivity.
Qed.

Lemma lower_idempotent (s : string) : lower (lower s) = lower s.
Proof.
  induction s as [| c rest IH]; cbn; [reflexivity |].
  now rewrite lower_char_idempotent, IH.
Qed.

Lemma likely_operation_table (extra_name : string) :
  get_likely_operation_from_name extra_name
  = match dict_get (lower extra_name) operation_aliases with
    | Some op => Return op
    | None => Raise (GraphQLError ("Unknown extra operation " ++ lower extra_name))
    end.
Proof.
  unfold get_likely_operation_from_name, operation_aliases. cbv zeta.
  generalize (lower extra_name) as t. intros t. cbn [dict_get].
  destruct (String.eqb t "update"); [reflexivity |].
  destruct (String.eqb t "patch"); [reflexivity |].
  destruct (String.eqb t "add"); [reflexivity |].
  destruct (String.eqb t "append"); [reflexivity |].
  destruct (String.eqb t "exact"); [reflexivity |].
  destruct (String.eqb t "delete"); [reflexivity |].
  destruct (String.eqb t "remove"); reflexivity.
Qed.

Lemma alias_operation (t op : string) :
  dict_get t operation_aliases = Some op ->
  In op ["update"; "add"; "remove"].
Proof.
  unfold operation_aliases. cbn [dict_get].
  repeat (destruct (String.eqb t _);
          [intros H; injection H as <-; cbn; tauto |]).
  discriminate.
Qed.

(** X1.  [get_likely_operation_from_name] looks the lower-cased name up among
    seven aliases: it returns an operation exactly when the lower-cased name
    is an alias, that operation is "update", "add" or "remove", and any
    other name fails with the schema error whose message ends with the
    lower-cased name, not the name as given. *)
Theorem likely_operation_cases :
  (forall extra_name op,
      get_likely_operation_from_name extra_name = Return op
      <-> dict_get (lower extra_name) operation_aliases = Some op)
  /\ (forall extra_name op,
         get_likely_operation_from_name extra_name = Return op ->
         In op ["update"; "add"; "remove"])
  /\ (forall extra_name e,
         get_likely_operation_from_name extra_name = Raise e
         <-> dict_get (lower extra_name) operation_aliases = None
             /\ e = GraphQLError
                      ("Unknown extra operation " ++ lower extra_name)).
Proof.
  split; [| split].
  - intros extra_name op. rewrite likely_operation_table.
    destruct (dict_get (lower extra_name) operation_aliases);
      split; congruence.
  - intros extra_name op. rewrite likely_operation_table.
    destruct (dict_get (lower extra_name) operation_aliases) eqn:Halias;
      [| discriminate].
    intros H. injection H as <-. exact (alias_operation _ _ Halias).
  - intros extra_name e. rewrite likely_operation_table.
    destruct (dict_get (lower extra_name) operation_aliases).
    + split; [discriminate | intros [H _]; discriminate H].
    + split; [intros H; injection H as <-; now split |].
      intros [_ ->]. reflexivity.
Qed.

Lemma likely_operation_cases_witness :
  In "update" ["update"; "add"; "remove"]
  /\ get_likely_operation_from_name "Bogus"
     = Raise (GraphQLError "Unknown extra operation bogus").
Proof.
  destruct likely_operation_cases as (_ & Hrange & Hfail).
  split.
  - apply (Hrange "Patch" "update"). reflexivity.
  - apply (Hfail "Bogus"). split; reflexivity.
Defined.

(** X2.  The case of the letters does not matter to
    [get_likely_operation_from_name], and it maps each operation it returns
    to itself: asking the operation of an answer gives the same answer. *)
Theorem likely_operation_stable :
  (forall extra_name,
      get_likely_operation_from_name (lower extra_name)
      = get_likely_operation_from_name extra_name)
  /\ (forall extra_name op,
         get_likely_operation_from_name extra_name = Return op ->
         get_likely_operation_from_name op = Return op).
Proof.
  split.
  - intros extra_name. rewrite !likely_operation_table, lower_idempotent.
    reflexivity.
  - intros extra_name op. rewrite likely_operation_table.
    destruct (dict_get (lower extra_name) operation_aliases) eqn:Halias;
      [| discriminate].
    intros H. injection H as <-. apply alias_operation in Halias.
    cbn in Halias.
    destruct Halias as [<- | [<- | [<- | []]]]; reflexivity.
Qed.

Lemma likely_operation_stable_witness :
  get_likely_operation_from_name "add" = Return "add".
Proof.
  destruct likely_operation_stable as [_ Hfixed].
  apply (Hfixed "EXACT"). reflexivity.
Defined.

(** ** Identifier disambiguation *)

(** X3.  No exception leaves [disambiguate_id], whatever the codec does.
    When [int()] fails with anything but a value error (None, a list, an
    infinite float) the codec is not asked: the result is -1 even for a
    codec that would decode the token. *)
Theorem disambiguate_id_never_raises
  (from_global_id : pyval -> result (pyval * pyval)) :
  (forall token, exists v, disambiguate_id from_global_id token = Return v)
  /\ (forall token e,
         py_int token = Raise e ->
         is_ValueError e = false ->
         disambiguate_id from_global_id token = Return (PyInt (-1)))
  /\ disambiguate_id from_global_id PyNone = Return (PyInt (-1))
  /\ (forall l, disambiguate_id from_global_id (PyList l) = Return (PyInt (-1)))
  /\ (forall negative,
         disambiguate_id from_global_id (PyFloat (FInf negative))
         = Return (PyInt (-1))).
Proof.
  split; [apply disambiguate_id_returns |].
  assert (Hshort : forall token e,
             py_int token = Raise e ->
             is_ValueError e = false ->
             disambiguate_id from_global_id token = Return (PyInt (-1))).
  { intros token e Hint He. apply disambiguate_id_fallback with (e := e);
      [exact Hint |]. rewrite He. discriminate. }
  split; [exact Hshort |]. split; [| split].
  - eapply (Hshort PyNone); reflexivity.
  - intros l. eapply (Hshort (PyList l)); reflexivity.
  - intros negative. eapply (Hshort (PyFloat (FInf negative))); reflexivity.
Qed.

Lemma disambiguate_id_never_raises_witness :
  disambiguate_id (fun _ => Return (PyStr "T", PyInt 7)) (PyTuple [PyInt 3])
  = Return (PyInt (-1)).
Proof.
  destruct (disambiguate_id_never_raises (fun _ => Return (PyStr "T", PyInt 7)))
    as (_ & Hshort & _).
  apply (Hshort (PyTuple [PyInt 3])
           (TypeError "int() argument must be a string, a bytes-like object or a real number"));
    reflexivity.
Defined.

(** ** Nested-field shorthand *)

Lemma overload_returns_dict (v r : pyval) :
  overload_nested_fields v = Return r -> is_dict r = true.
Proof.
  unfold overload_nested_fields.
  destruct v; cbn [is_dict has_iter];
    try (intros H; injection H as <-; reflexivity);
    (destruct (overload_entries _ _); cbn [bind];
     [intros H; injection H as <-; reflexivity | discriminate]).
Qed.

(** X4.  Normalising is idempotent: what [overload_nested_fields] returns is
    a dict, and it maps that dict to itself. *)
Theorem overload_nested_fields_idempotent (nested_fields r : pyval) :
  overload_nested_fields nested_fields = Return r ->
  is_dict r = true /\ overload_nested_fields r = Return r.
Proof.
  intros Hrun. apply overload_returns_dict in Hrun.
  split; [exact Hrun |]. destruct r; try discriminate Hrun. reflexivity.
Qed.

Lemma overload_nested_fields_idempotent_witness :
  is_dict (PyDict [("a", PyList [PyStr "all"]); ("b", PyList [PyStr "all"])]) = true
  /\ overload_nested_fields
       (PyDict [("a", PyList [PyStr "all"]); ("b", PyList [PyStr "all"])])
     = Return (PyDict [("a", PyList [PyStr "all"]); ("b", PyList [PyStr "all"])]).
Proof.
  apply (overload_nested_fields_idempotent (PyTuple [PyStr "a"; PyStr "b"])).
  reflexivity.
Defined.

Lemma dict_set_all (name : string) (seen : list string) :
  dict_set name (PyList [PyStr "all"])
    (map (fun n => (n, PyList [PyStr "all"])) seen)
  = map (fun n => (n, PyList [PyStr "all"]))
      (if name_in name seen then seen else (seen ++ [name])%list).
Proof.
  induction seen as [| k rest IH]; [reflexivity |].
  cbn [map dict_set name_in existsb].
  destruct (String.eqb_spec name k) as [-> | Hne]; [reflexivity |].
  cbn [orb]. rewrite IH. fold (name_in name rest).
  destruct (name_in name rest); reflexivity.
Qed.

Lemma overload_entries_first_occurrences (names seen : list string) :
  overload_entries (map PyStr names)
    (map (fun n => (n, PyList [PyStr "all"])) seen)
  = Return
      (map (fun n => (n, PyList [PyStr "all"]))
         (fold_left
            (fun seen name =>
               if name_in name seen then seen else (seen ++ [name])%list)
            names seen)).
Proof.
  revert seen. induction names as [| name rest IH]; intros seen; [reflexivity |].
  cbn [map overload_entries fold_left]. rewrite dict_set_all. apply IH.
Qed.

Lemma first_occurrences_loop (names seen : list string) :
  NoDup seen ->
  NoDup (fold_left
           (fun seen name =>
              if name_in name seen then seen else (seen ++ [name])%list)
           names seen)
  /\ forall x,
      In x (fold_left
              (fun seen name =>
                 if name_in name seen then seen else (seen ++ [name])%list)
              names seen)
      <-> In x seen \/ In x names.
Proof.
  revert seen. induction names as [| name rest IH]; intros seen Hseen.
  - cbn. split; [exact Hseen |]. intros x. split; [now left |].
    intros [H | []]. exact H.
  - cbn [fold_left]. destruct (name_in name seen) eqn:Hin.
    + destruct (IH seen Hseen) as [Hnodup Hmem]. split; [exact Hnodup |].
      intros x. rewrite Hmem. apply name_in_In in Hin. cbn.
      split; [intros [H | H]; auto |].
      intros [H | [<- | H]]; auto.
    + apply name_in_not_In in Hin.
      assert (Hseen' : NoDup (seen ++ [name])).
      { apply NoDup_app; [exact Hseen | repeat constructor; intros [] |].
        intros x Hx [<- | []]. contradiction. }
      destruct (IH _ Hseen') as [Hnodup Hmem]. split; [exact Hnodup |].
      intros x. rewrite Hmem, in_app_iff. cbn.
      split; [intros [[H | [<- | []]] | H]; auto |].
      intros [H | [<- | H]]; auto.
Qed.

(** X5.  On an iterable of names, [overload_nested_fields] returns the dict
    of the names in the order of their first occurrence, each once, each
    with the value ["all"]: a repeated name keeps its first place. *)
Theorem overload_nested_fields_first_occurrences (v : pyval) (names : list string) :
  is_dict v = false ->
  has_iter v = true ->
  py_iter v = map PyStr names ->
  overload_nested_fields v
  = Return (PyDict (map (fun n => (n, PyList [PyStr "all"]))
                      (first_occurrences names)))
  /\ NoDup (first_occurrences names)
  /\ (forall x, In x (first_occurrences names) <-> In x names).
Proof.
  intros Hdict Hiter Hels. split.
  - pose proof (overload_entries_first_occurrences names []) as Hrun.
    cbn [map] in Hrun. fold (first_occurrences names) in Hrun.
    destruct v; try discriminate; unfold overload_nested_fields;
      cbn [is_dict has_iter]; rewrite Hels, Hrun; reflexivity.
  - destruct (first_occurrences_loop names [] (NoDup_nil _)) as [Hnodup Hmem].
    split; [exact Hnodup |]. intros x. unfold first_occurrences.
    rewrite Hmem. cbn. tauto.
Qed.

Lemma overload_nested_fields_first_occurrences_witness :
  overload_nested_fields (PyList [PyStr "b"; PyStr "a"; PyStr "b"])
  = Return (PyDict (map (fun n => (n, PyList [PyStr "all"]))
                      (first_occurrences ["b"; "a"; "b"])))
  /\ NoDup (first_occurrences ["b"; "a"; "b"])
  /\ (forall x, In x (first_occurrences ["b"; "a"; "b"]) <-> In x ["b"; "a"; "b"]).
Proof.
  apply (overload_nested_fields_first_occurrences
           (PyList [PyStr "b"; PyStr "a"; PyStr "b"]) ["b"; "a"; "b"]);
    reflexivity.
Defined.

(** ** Dictionaries: order of the keys *)

Lemma dict_keys_set_order {V : Type} (k : string) (v : V) (d : pydict V) :
  dict_keys (dict_set k v d)
  = if name_in k (dict_keys d) then dict_keys d else (dict_keys d ++ [k])%list.
Proof.
  induction d as [| [k' v'] rest IH]; [reflexivity |].
  cbn [dict_set dict_keys map fst name_in existsb].
  destruct (String.eqb_spec k k') as [-> | Hne]; [reflexivity |].
  cbn [map fst orb]. unfold dict_keys in IH. rewrite IH.
  fold (name_in k (map fst rest)).
  destruct (name_in k (map fst rest)); reflexivity.
Qed.

Lemma dict_keys_set_fresh {V : Type} (k : string) (v : V) (d : pydict V) :
  ~ In k (dict_keys d) ->
  dict_keys (dict_set k v d) = (dict_keys d ++ [k])%list.
Proof.
  intros Hfresh. rewrite dict_keys_set_order.
  apply name_in_not_In in Hfresh. now rewrite Hfresh.
Qed.

Lemma dict_keys_set_prefix {V : Type} (k : string) (v : V) (d : pydict V) :
  exists suffix, dict_keys (dict_set k v d) = (dict_keys d ++ suffix)%list.
Proof.
  rewrite dict_keys_set_order. destruct (name_in k (dict_keys d)).
  - exists []. now rewrite app_nil_r.
  - now exists [k].
Qed.

Lemma dict_keys_set_nodup {V : Type} (k : string) (v : V) (d : pydict V) :
  NoDup (dict_keys d) -> NoDup (dict_keys (dict_set k v d)).
Proof.
  intros Hnodup. rewrite dict_keys_set_order.
  destruct (name_in k (dict_keys d)) eqn:Hin; [exact Hnodup |].
  apply name_in_not_In in Hin.
  apply NoDup_app; [exact Hnodup | repeat constructor; intros [] |].
  intros x Hx [<- | []]. contradiction.
Qed.

Lemma dict_keys_set_same_keys {V : Type} (k : string) (v1 v2 : V)
  (d1 d2 : pydict V) :
  dict_keys d1 = dict_keys d2 ->
  dict_keys (dict_set k v1 d1) = dict_keys (dict_set k v2 d2).
Proof.
  intros Hkeys. now rewrite !dict_keys_set_order, Hkeys.
Qed.

Lemma nodup_app_apart {A : Type} (l1 l2 : list A) (a : A) :
  NoDup (l1 ++ l2) -> In a l1 -> In a l2 -> False.
Proof.
  induction l1 as [| x rest IH]; intros Hnodup H1 H2; [destruct H1 |].
  cbn in Hnodup. inversion Hnodup as [| ? ? Hfresh Hrest]; subst.
  destruct H1 as [-> | H1].
  - apply Hfresh, in_or_app. now right.
  - now apply IH.
Qed.

Lemma nodup_fst_unique {A : Type} (l : list (string * A)) (k : string) (a b : A) :
  NoDup (map fst l) -> In (k, a) l -> In (k, b) l -> a = b.
Proof.
  induction l as [| [k' c] rest IH]; intros Hnodup Ha Hb; [destruct Ha |].
  cbn in Hnodup. inversion Hnodup as [| ? ? Hfresh Hrest]; subst.
  destruct Ha as [Ha | Ha], Hb as [Hb | Hb].
  - congruence.
  - injection Ha as -> ->. elim Hfresh. now apply (in_map fst _ (k, b)).
  - injection Hb as -> ->. elim Hfresh. now apply (in_map fst _ (k, a)).
  - now apply IH.
Qed.

(** ** Input-field builders: order of the keys *)

Section BuilderOrder.

Context {InputType Registry : Type}.
Variable registry : Registry.
Variable convert_field :
  django_field -> Registry -> option bool -> pyval -> pyval -> option InputType.
Variable convert_m2m :
  django_field -> Registry -> option bool -> pyval -> pyval -> option InputType.

Lemma base_keys_order
  (only_fields exclude_fields optional_fields required_fields : list string)
  (many_to_many_extras : extras_config) (foreign_key_extras : pydict pyval)
  (l : list (string * django_field)) (st : builder_state InputType) :
  NoDup (map fst l) ->
  (forall n, In n (map fst l) -> ~ In n (dict_keys (fst st))) ->
  dict_keys
    (fst (fold_left
            (input_fields_step convert_field registry only_fields exclude_fields
               optional_fields required_fields many_to_many_extras
               foreign_key_extras)
            l st))
  = (dict_keys (fst st)
       ++ map fst (filter (is_kept only_fields exclude_fields) l))%list.
Proof.
  revert st. induction l as [| [n f] rest IH]; intros st Hnodup Hfresh.
  - cbn. now rewrite app_nil_r.
  - cbn in Hnodup. inversion Hnodup as [| ? ? Hn Hrest]; subst.
    cbn [fold_left]. rewrite IH; [| exact Hrest |].
    + rewrite input_fields_step_cases. unfold is_kept at 2. cbn [filter fst snd].
      destruct (primary_key f); cbn [negb andb fst]; [reflexivity |].
      destruct (is_skipped only_fields exclude_fields n);
        cbn [negb fst map]; [reflexivity |].
      rewrite dict_keys_set_fresh, <- app_assoc; [reflexivity |].
      apply Hfresh. now left.
    + intros m Hm Hin. apply step_fields_keys in Hin.
      destruct Hin as [Hin | [-> _]].
      * apply (Hfresh m); [now right | exact Hin].
      * contradiction.
Qed.

Lemma base_keys_nodup
  (only_fields exclude_fields optional_fields required_fields : list string)
  (many_to_many_extras : extras_config) (foreign_key_extras : pydict pyval)
  (l : list (string * django_field)) (st : builder_state InputType) :
  NoDup (dict_keys (fst st)) ->
  NoDup (dict_keys
           (fst (fold_left
                   (input_fields_step convert_field registry only_fields
                      exclude_fields optional_fields required_fields
                      many_to_many_extras foreign_key_extras)
                   l st))).
Proof.
  revert st. induction l as [| [n f] rest IH]; intros st Hnodup; [exact Hnodup |].
  cbn [fold_left]. apply IH. rewrite input_fields_step_cases.
  destruct (primary_key f); [exact Hnodup |].
  destruct (is_skipped only_fields exclude_fields n); [exact Hnodup |].
  cbn [fst]. now apply dict_keys_set_nodup.
Qed.

Lemma extras_of_keys_grow (name : string) (field : django_field)
  (extras : pydict pyval) (fields fields' : pydict (option InputType)) :
  input_fields_extras_of convert_m2m registry name field extras fields
  = Return fields' ->
  (exists suffix, dict_keys fields' = (dict_keys fields ++ suffix)%list)
  /\ (NoDup (dict_keys fields) -> NoDup (dict_keys fields')).
Proof.
  revert fields. induction extras as [| [op data] rest IH]; intros fields Hrun.
  - cbn in Hrun. injection Hrun as <-. split; [| trivial].
    exists []. now rewrite app_nil_r.
  - cbn [input_fields_extras_of] in Hrun.
    destruct (String.eqb op "exact"); [exact (IH _ Hrun) |].
    destruct (extra_data_config data) as [cfg | e]; [| discriminate Hrun].
    cbn [bind] in Hrun.
    destruct (match convert_m2m field registry (Some false) cfg PyNone with
              | Some t => Return (Some t)
              | None => dict_getitem name fields
              end) as [_field | e]; [| discriminate Hrun].
    cbn [bind] in Hrun.
    destruct (IH _ Hrun) as [[suffix Hsuffix] Hnodup]. split.
    + destruct (dict_keys_set_prefix (name ++ "_" ++ op) _field fields)
        as [added Hadded].
      exists (added ++ suffix)%list.
      now rewrite Hsuffix, Hadded, app_assoc.
    + intros H. apply Hnodup. now apply dict_keys_set_nodup.
Qed.

Lemma extras_keys_grow (model : django_model) (entries : extras_config)
  (fields_lookup : pydict django_field)
  (fields fields' : pydict (option InputType)) :
  input_fields_extras convert_m2m registry model entries fields_lookup fields
  = Return fields' ->
  (exists suffix, dict_keys fields' = (dict_keys fields ++ suffix)%list)
  /\ (NoDup (dict_keys fields) -> NoDup (dict_keys fields')).
Proof.
  revert fields. induction entries as [| [name extras] rest IH];
    intros fields Hrun.
  - cbn in Hrun. injection Hrun as <-. split; [| trivial].
    exists []. now rewrite app_nil_r.
  - cbn [input_fields_extras] in Hrun.
    destruct (dict_get name fields_lookup) as [field |]; [| discriminate Hrun].
    destruct (input_fields_extras_of convert_m2m registry name field extras fields)
      as [fields1 | e] eqn:Hof; [| discriminate Hrun].
    cbn [bind] in Hrun.
    destruct (extras_of_keys_grow _ _ _ _ _ Hof) as [[added Hadded] Hnodup1].
    destruct (IH _ Hrun) as [[suffix Hsuffix] Hnodup]. split.
    + exists (added ++ suffix)%list. now rewrite Hsuffix, Hadded, app_assoc.
    + intros H. apply Hnodup, Hnodup1, H.
Qed.

(** X6.  The mapping [get_input_fields_for_model] returns has no key twice.
    Field names being distinct, its keys are the names of the converted
    fields in reflection order, followed by keys that the extras added, each
    of them made of a field name, an underscore and an operation. *)
Theorem builder_keys_order
  (model : django_model)
  (only_fields exclude_fields optional_fields required_fields : list string)
  (many_to_many_extras : option extras_config)
  (foreign_key_extras : option (pydict pyval))
  (fields : pydict (option InputType)) :
  NoDup (map fst (get_model_fields model)) ->
  get_input_fields_for_model registry convert_field convert_m2m model
    only_fields exclude_fields optional_fields required_fields
    many_to_many_extras foreign_key_extras
  = Return fields ->
  NoDup (dict_keys fields)
  /\ exists added,
      dict_keys fields
      = (map fst (filter (is_kept only_fields exclude_fields)
                    (get_model_fields model))
           ++ added)%list
      /\ forall key,
          In key added ->
          extras_key (reflected model) (extras_or_empty many_to_many_extras) key.
Proof.
  intros Hnames Hrun.
  rewrite get_input_fields_for_model_loops in Hrun. cbv zeta in Hrun.
  pose proof (base_keys_order only_fields exclude_fields optional_fields
                required_fields (extras_or_empty many_to_many_extras)
                (extras_or_empty foreign_key_extras)
                (get_model_fields model) ([], []) Hnames
                (fun n _ (H : In n []) => H)) as Hbase.
  cbn [fst dict_keys map app] in Hbase. fold (@dict_keys (option InputType)) in Hbase.
  fold (input_fields_base convert_field registry (get_model_fields model)
          only_fields exclude_fields optional_fields required_fields
          (extras_or_empty many_to_many_extras)
          (extras_or_empty foreign_key_extras)) in Hbase.
  destruct (extras_keys_grow _ _ _ _ _ Hrun) as [[added Hadded] Hnodup].
  assert (Hfields : NoDup (dict_keys fields)).
  { apply Hnodup. unfold input_fields_base. apply base_keys_nodup. constructor. }
  split; [exact Hfields |]. exists added. rewrite Hadded, Hbase.
  split; [reflexivity |]. intros key Hkey.
  apply extras_keys in Hrun as [Hreflected Hkeys].
  assert (Hin : In key (dict_keys fields)).
  { rewrite Hadded. apply in_or_app. now right. }
  apply Hkeys in Hin as [Hin | (name & extras & op & data & Hentry & Hrest)].
  - rewrite Hadded in Hfields. elim (nodup_app_apart _ _ key Hfields Hin Hkey).
  - exists name, extras, op, data. split; [| exact (conj Hentry Hrest)].
    apply Hreflected in Hentry. now apply base_lookup_reflected in Hentry.
Qed.

Lemma is_skipped_only_covering (only_fields exclude_fields : list string)
  (name : string) :
  In name only_fields ->
  is_skipped only_fields exclude_fields name = is_skipped [] exclude_fields name.
Proof.
  intros Hin. unfold is_skipped. apply name_in_In in Hin. rewrite Hin.
  cbn. now rewrite andb_false_r.
Qed.

(** X7.  An empty [only_fields] restricts nothing: an [only_fields] that
    holds the name of every reflected field gives the result the empty one
    gives. *)
Theorem only_fields_covering_all
  (model : django_model)
  (only_fields exclude_fields optional_fields required_fields : list string)
  (many_to_many_extras : option extras_config)
  (foreign_key_extras : option (pydict pyval)) :
  (forall name field,
      In (name, field) (get_model_fields model) -> In name only_fields) ->
  get_input_fields_for_model registry convert_field convert_m2m model
    only_fields exclude_fields optional_fields required_fields
    many_to_many_extras foreign_key_extras
  = get_input_fields_for_model registry convert_field convert_m2m model
      [] exclude_fields optional_fields required_fields
      many_to_many_extras foreign_key_extras.
Proof.
  intros Hall. rewrite !get_input_fields_for_model_loops. cbv zeta.
  assert (Hbase :
            input_fields_base convert_field registry (get_model_fields model)
              only_fields exclude_fields optional_fields required_fields
              (extras_or_empty many_to_many_extras)
              (extras_or_empty foreign_key_extras)
            = input_fields_base convert_field registry (get_model_fields model)
                [] exclude_fields optional_fields required_fields
                (extras_or_empty many_to_many_extras)
                (extras_or_empty foreign_key_extras)).
  { unfold input_fields_base. apply fold_left_ext_in.
    intros st [name field] Hin. rewrite !input_fields_step_cases.
    now rewrite (is_skipped_only_covering _ _ _ (Hall _ _ Hin)). }
  now rewrite Hbase.
Qed.

End BuilderOrder.

(** ** Input-field builders: when they return and how they fail *)

Section BuilderOutcomes.

Context {InputType Registry : Type}.
Variable registry : Registry.
Variable convert_field :
  django_field -> Registry -> option bool -> pyval -> pyval -> option InputType.
Variable convert_m2m :
  django_field -> Registry -> option bool -> pyval -> pyval -> option InputType.

Lemma base_lookup_frame
  (only_fields exclude_fields optional_fields required_fields : list string)
  (many_to_many_extras : extras_config) (foreign_key_extras : pydict pyval)
  (l : list (string * django_field)) (st : builder_state InputType)
  (name : string) :
  ~ In name (map fst l) ->
  dict_get name
    (snd (fold_left
            (input_fields_step convert_field registry only_fields exclude_fields
               optional_fields required_fields many_to_many_extras
               foreign_key_extras)
            l st))
  = dict_get name (snd st).
Proof.
  revert st. induction l as [| [n f] rest IH]; intros st Hout; [reflexivity |].
  cbn [fold_left]. cbn in Hout.
  rewrite IH by (intros H; apply Hout; now right).
  assert (Hne : name <> n) by (intros ->; apply Hout; now left).
  rewrite input_fields_step_cases.
  destruct (primary_key f); [reflexivity |].
  destruct (is_skipped only_fields exclude_fields n); cbn [snd];
    now apply dict_get_set_other.
Qed.

Lemma base_lookup_value
  (only_fields exclude_fields optional_fields required_fields : list string)
  (many_to_many_extras : extras_config) (foreign_key_extras : pydict pyval)
  (l : list (string * django_field)) (st : builder_state InputType)
  (name : string) (field : django_field) :
  NoDup (map fst l) ->
  In (name, field) l ->
  primary_key field = false ->
  dict_get name
    (snd (fold_left
            (input_fields_step convert_field registry only_fields exclude_fields
               optional_fields required_fields many_to_many_extras
               foreign_key_extras)
            l st))
  = Some field.
Proof.
  revert st. induction l as [| [n f] rest IH]; intros st Hnodup Hin Hpk;
    [destruct Hin |].
  cbn in Hnodup. inversion Hnodup as [| ? ? Hfresh Hrest]; subst.
  cbn [fold_left]. destruct Hin as [Heq | Hin]; [| now apply IH].
  injection Heq as -> ->. rewrite base_lookup_frame by exact Hfresh.
  rewrite input_fields_step_cases, Hpk.
  destruct (is_skipped only_fields exclude_fields name); cbn [snd];
    apply dict_get_set_same.
Qed.

(** The all-optional builder is the other one run with every field name in
    [optional_fields]. *)
Lemma all_optional_as_input_fields
  (model : django_model) (only_fields exclude_fields required_fields : list string)
  (many_to_many_extras : option extras_config)
  (foreign_key_extras : option (pydict pyval)) :
  get_all_optional_input_fields_for_model registry convert_field convert_m2m
    model only_fields exclude_fields many_to_many_extras foreign_key_extras
  = get_input_fields_for_model registry convert_field convert_m2m model
      only_fields exclude_fields (map fst (get_model_fields model))
      required_fields many_to_many_extras foreign_key_extras.
Proof.
  unfold get_all_optional_input_fields_for_model, get_input_fields_for_model.
  cbv zeta. unfold all_optional_base, input_fields_base.
  rewrite (fold_left_ext_in
             (all_optional_step convert_field registry only_fields exclude_fields
                (extras_or_empty many_to_many_extras)
                (extras_or_empty foreign_key_extras))
             (input_fields_step convert_field registry only_fields exclude_fields
                (map fst (get_model_fields model)) required_fields
                (extras_or_empty many_to_many_extras)
                (extras_or_empty foreign_key_extras))).
  - destruct (fold_left _ _ _) as [fields fields_lookup].
    apply all_optional_extras_same.
  - intros st item Hin. apply all_optional_step_same. intros _ _.
    now apply in_map.
Qed.

(** X8.  Both builders return a mapping whenever every entry of the
    many-to-many extras names a reflected field that is not the primary key
    and passed the filtering, and gives each operation other than "exact" a
    boolean or a dict; with no extras they always return. *)
Theorem builders_return
  (model : django_model)
  (only_fields exclude_fields optional_fields required_fields : list string)
  (many_to_many_extras : option extras_config)
  (foreign_key_extras : option (pydict pyval)) :
  (forall name extras,
      In (name, extras) (extras_or_empty many_to_many_extras) ->
      base_key model only_fields exclude_fields name
      /\ (forall op data,
             In (op, data) extras -> op <> "exact" ->
             is_config_value data = true)) ->
  (exists fields,
      get_input_fields_for_model registry convert_field convert_m2m model
        only_fields exclude_fields optional_fields required_fields
        many_to_many_extras foreign_key_extras
      = Return fields)
  /\ (exists fields,
         get_all_optional_input_fields_for_model registry convert_field
           convert_m2m model only_fields exclude_fields
           many_to_many_extras foreign_key_extras
         = Return fields).
Proof.
  intros Hsound.
  assert (Hrun : forall optional required,
             exists fields,
               get_input_fields_for_model registry convert_field convert_m2m
                 model only_fields exclude_fields optional required
                 many_to_many_extras foreign_key_extras
               = Return fields).
  { intros optional required.
    rewrite get_input_fields_for_model_loops. cbv zeta.
    apply extras_succeed. intros n e Hin.
    destruct (Hsound n e Hin) as [[Hreflected Hpasses] Hvalues].
    split; [now apply base_lookup_reflected |].
    split; [| exact Hvalues].
    apply base_fields_base_key. split; assumption. }
  split; [apply Hrun |]. rewrite all_optional_as_input_fields with (required_fields := []).
  apply Hrun.
Qed.

(** X9.  When a field is filtered out, an extras operation on it whose
    conversion yields nothing makes [get_input_fields_for_model] fail with a
    key error on the field name: the fallback reads an entry of the mapping
    that the first loop never wrote. *)
Theorem extras_fallback_key_error
  (model : django_model)
  (only_fields exclude_fields optional_fields required_fields : list string)
  (many_to_many_extras : option extras_config)
  (foreign_key_extras : option (pydict pyval))
  (name : string) (field : django_field) (op : string) (data cfg : pyval)
  (ops : pydict pyval) (post : extras_config) :
  NoDup (map fst (get_model_fields model)) ->
  In (name, field) (get_model_fields model) ->
  primary_key field = false ->
  ~ passes_filtering only_fields exclude_fields name ->
  extras_or_empty many_to_many_extras = (name, (op, data) :: ops) :: post ->
  op <> "exact" ->
  extra_data_config data = Return cfg ->
  convert_m2m field registry (Some false) cfg PyNone = None ->
  get_input_fields_for_model registry convert_field convert_m2m model
    only_fields exclude_fields optional_fields required_fields
    many_to_many_extras foreign_key_extras
  = Raise (KeyError name).
Proof.
  intros Hnodup Hin Hpk Hfiltered Hextras Hop Hcfg Hnothing.
  rewrite get_input_fields_for_model_loops. cbv zeta. rewrite Hextras.
  cbn [input_fields_extras]. unfold input_fields_base at 1.
  rewrite (base_lookup_value _ _ _ _ _ _ _ _ _ _ Hnodup Hin Hpk).
  cbn [input_fields_extras_of].
  destruct (String.eqb_spec op "exact") as [Heq | _]; [contradiction |].
  rewrite Hcfg. cbn [bind]. rewrite Hnothing. unfold dict_getitem.
  destruct (dict_get name _) as [v |] eqn:Hget; [| reflexivity].
  apply dict_get_some_keys in Hget. rewrite <- Hextras in Hget.
  apply base_fields_base_key in Hget. destruct Hget as [_ Hpasses].
  contradiction.
Qed.

(** X10.  The primary key cannot carry extras: an entry of the many-to-many
    extras that names the primary-key field fails with the schema error that
    says the field does not exist, although reflection lists it. *)
Theorem primary_key_extras_rejected
  (model : django_model)
  (only_fields exclude_fields optional_fields required_fields : list string)
  (many_to_many_extras : option extras_config)
  (foreign_key_extras : option (pydict pyval))
  (name : string) (field : django_field) (extras : pydict pyval)
  (post : extras_config) :
  NoDup (map fst (get_model_fields model)) ->
  In (name, field) (get_model_fields model) ->
  primary_key field = true ->
  extras_or_empty many_to_many_extras = (name, extras) :: post ->
  get_input_fields_for_model registry convert_field convert_m2m model
    only_fields exclude_fields optional_fields required_fields
    many_to_many_extras foreign_key_extras
  = Raise (GraphQLError (extras_error_message name model)).
Proof.
  intros Hnodup Hin Hpk Hextras.
  apply (schema_error_when_reached registry convert_field convert_m2m model
           only_fields exclude_fields optional_fields required_fields
           many_to_many_extras foreign_key_extras [] name extras post
           (fst (input_fields_base convert_field registry
                   (get_model_fields model) only_fields exclude_fields
                   optional_fields required_fields
                   (extras_or_empty many_to_many_extras)
                   (extras_or_empty foreign_key_extras)))).
  - exact Hextras.
  - intros (other & Hother & Hnot).
    rewrite (nodup_fst_unique _ _ _ _ Hnodup Hother Hin) in Hnot. congruence.
  - reflexivity.
Qed.

End BuilderOutcomes.

(** ** Input-field builders: what the optional and required lists change *)

Section BuilderShape.

Context {InputType Registry : Type}.
Variable registry : Registry.
Variable convert_field :
  django_field -> Registry -> option bool -> pyval -> pyval -> option InputType.
Variable convert_m2m :
  django_field -> Registry -> option bool -> pyval -> pyval -> option InputType.

Lemma step_same_shape
  (only_fields exclude_fields : list string)
  (optional1 required1 optional2 required2 : list string)
  (many_to_many_extras : extras_config) (foreign_key_extras : pydict pyval)
  (st1 st2 : builder_state InputType) (item : string * django_field) :
  snd st1 = snd st2 ->
  dict_keys (fst st1) = dict_keys (fst st2) ->
  snd (input_fields_step convert_field registry only_fields exclude_fields
         optional1 required1 many_to_many_extras foreign_key_extras st1 item)
  = snd (input_fields_step convert_field registry only_fields exclude_fields
           optional2 required2 many_to_many_extras foreign_key_extras st2 item)
  /\ dict_keys
       (fst (input_fields_step convert_field registry only_fields
               exclude_fields optional1 required1 many_to_many_extras
               foreign_key_extras st1 item))
     = dict_keys
         (fst (input_fields_step convert_field registry only_fields
                 exclude_fields optional2 required2 many_to_many_extras
                 foreign_key_extras st2 item)).
Proof.
  intros Hlookup Hkeys. destruct item as [name field].
  rewrite !input_fields_step_cases.
  destruct (primary_key field); [now split |].
  destruct (is_skipped only_fields exclude_fields name); cbn [fst snd];
    rewrite Hlookup; split; try reflexivity; try exact Hkeys.
  now apply dict_keys_set_same_keys.
Qed.

Lemma base_same_shape
  (only_fields exclude_fields : list string)
  (optional1 required1 optional2 required2 : list string)
  (many_to_many_extras : extras_config) (foreign_key_extras : pydict pyval)
  (l : list (string * django_field)) (st1 st2 : builder_state InputType) :
  snd st1 = snd st2 ->
  dict_keys (fst st1) = dict_keys (fst st2) ->
  snd (fold_left
         (input_fields_step convert_field registry only_fields exclude_fields
            optional1 required1 many_to_many_extras foreign_key_extras) l st1)
  = snd (fold_left
           (input_fields_step convert_field registry only_fields exclude_fields
              optional2 required2 many_to_many_extras foreign_key_extras) l st2)
  /\ dict_keys
       (fst (fold_left
               (input_fields_step convert_field registry only_fields
                  exclude_fields optional1 required1 many_to_many_extras
                  foreign_key_extras) l st1))
     = dict_keys
         (fst (fold_left
                 (input_fields_step convert_field registry only_fields
                    exclude_fields optional2 required2 many_to_many_extras
                    foreign_key_extras) l st2)).
Proof.
  revert st1 st2. induction l as [| item rest IH]; intros st1 st2 Hlookup Hkeys.
  - now split.
  - cbn [fold_left].
    destruct (step_same_shape only_fields exclude_fields optional1 required1
                optional2 required2 many_to_many_extras foreign_key_extras
                st1 st2 item Hlookup Hkeys) as [Hl Hk].
    now apply IH.
Qed.

Lemma extras_of_same_shape (name : string) (field : django_field)
  (extras : pydict pyval) (fields1 fields2 : pydict (option InputType)) :
  dict_keys fields1 = dict_keys fields2 ->
  same_keys_or_failure
    (input_fields_extras_of convert_m2m registry name field extras fields1)
    (input_fields_extras_of convert_m2m registry name field extras fields2).
Proof.
  revert fields1 fields2. induction extras as [| [op data] rest IH];
    intros fields1 fields2 Hkeys.
  - exact Hkeys.
  - cbn [input_fields_extras_of].
    destruct (String.eqb op "exact"); [now apply IH |].
    destruct (extra_data_config data) as [cfg | e]; [| reflexivity].
    cbn [bind].
    destruct (convert_m2m field registry (Some false) cfg PyNone) as [t |].
    + cbn [bind]. now apply IH, dict_keys_set_same_keys.
    + unfold dict_getitem.
      destruct (dict_get name fields1) as [v1 |] eqn:H1,
               (dict_get name fields2) as [v2 |] eqn:H2; cbn [bind].
      * now apply IH, dict_keys_set_same_keys.
      * apply dict_get_some_keys in H1. apply dict_get_none_keys in H2.
        rewrite Hkeys in H1. contradiction.
      * apply dict_get_some_keys in H2. apply dict_get_none_keys in H1.
        rewrite Hkeys in H1. contradiction.
      * reflexivity.
Qed.

Lemma extras_same_shape (model : django_model) (entries : extras_config)
  (fields_lookup : pydict django_field)
  (fields1 fields2 : pydict (option InputType)) :
  dict_keys fields1 = dict_keys fields2 ->
  same_keys_or_failure
    (input_fields_extras convert_m2m registry model entries fields_lookup fields1)
    (input_fields_extras convert_m2m registry model entries fields_lookup fields2).
Proof.
  revert fields1 fields2. induction entries as [| [name extras] rest IH];
    intros fields1 fields2 Hkeys.
  - exact Hkeys.
  - cbn [input_fields_extras].
    destruct (dict_get name fields_lookup) as [field |]; [| reflexivity].
    pose proof (extras_of_same_shape name field extras fields1 fields2 Hkeys)
      as Hof.
    destruct (input_fields_extras_of convert_m2m registry name field extras fields1)
      as [a | e1],
      (input_fields_extras_of convert_m2m registry name field extras fields2)
      as [b | e2]; cbn in Hof; try contradiction; cbn [bind].
    + now apply IH.
    + exact Hof.
Qed.

Lemma input_fields_same_shape
  (model : django_model) (only_fields exclude_fields : list string)
  (optional1 required1 optional2 required2 : list string)
  (many_to_many_extras : option extras_config)
  (foreign_key_extras : option (pydict pyval)) :
  same_keys_or_failure
    (get_input_fields_for_model registry convert_field convert_m2m model
       only_fields exclude_fields optional1 required1
       many_to_many_extras foreign_key_extras)
    (get_input_fields_for_model registry convert_field convert_m2m model
       only_fields exclude_fields optional2 required2
       many_to_many_extras foreign_key_extras).
Proof.
  rewrite !get_input_fields_for_model_loops. cbv zeta. unfold input_fields_base.
  destruct (base_same_shape only_fields exclude_fields optional1 required1
              optional2 required2 (extras_or_empty many_to_many_extras)
              (extras_or_empty foreign_key_extras) (get_model_fields model)
              ([], []) ([], []) eq_refl eq_refl) as [Hlookup Hkeys].
  rewrite Hlookup. now apply extras_same_shape.
Qed.

(** X11.  [optional_fields] and [required_fields] decide values only: with
    any two pairs of lists [get_input_fields_for_model] returns mappings
    with the same keys in the same order, or fails with the same error; and
    [get_all_optional_input_fields_for_model] has the keys, or the failure,
    of [get_input_fields_for_model] whatever lists the latter is given. *)
Theorem optional_and_required_keep_keys
  (model : django_model) (only_fields exclude_fields : list string)
  (optional1 required1 optional2 required2 : list string)
  (many_to_many_extras : option extras_config)
  (foreign_key_extras : option (pydict pyval)) :
  same_keys_or_failure
    (get_input_fields_for_model registry convert_field convert_m2m model
       only_fields exclude_fields optional1 required1
       many_to_many_extras foreign_key_extras)
    (get_input_fields_for_model registry convert_field convert_m2m model
       only_fields exclude_fields optional2 required2
       many_to_many_extras foreign_key_extras)
  /\ same_keys_or_failure
       (get_all_optional_input_fields_for_model registry convert_field
          convert_m2m model only_fields exclude_fields
          many_to_many_extras foreign_key_extras)
       (get_input_fields_for_model registry convert_field convert_m2m model
          only_fields exclude_fields optional1 required1
          many_to_many_extras foreign_key_extras).
Proof.
  split; [apply input_fields_same_shape |].
  rewrite all_optional_as_input_fields with (required_fields := []).
  apply input_fields_same_shape.
Qed.

(** X12.  The names [get_m2m_all_extras_field_names] lists are keys of the
    mapping the builder returns, provided every field the extras name passed
    the filtering. *)
Theorem predicted_names_are_keys
  (model : django_model)
  (only_fields exclude_fields optional_fields required_fields : list string)
  (many_to_many_extras : option extras_config)
  (foreign_key_extras : option (pydict pyval))
  (fields : pydict (option InputType)) (derived : string) :
  get_input_fields_for_model registry convert_field convert_m2m model
    only_fields exclude_fields optional_fields required_fields
    many_to_many_extras foreign_key_extras
  = Return fields ->
  (forall name extras,
      In (name, extras) (extras_or_empty many_to_many_extras) ->
      passes_filtering only_fields exclude_fields name) ->
  In derived (get_m2m_all_extras_field_names many_to_many_extras) ->
  In derived (dict_keys fields).
Proof.
  intros Hrun Hpass Hderived.
  rewrite get_m2m_all_extras_field_names_derived in Hderived.
  unfold derived_field_names in Hderived.
  apply in_flat_map in Hderived as ([name extras] & Hentry & Hderived).
  apply in_map_iff in Hderived as ([op data] & Heq & Hop).
  cbn [fst snd] in Heq, Hop.
  rewrite get_input_fields_for_model_loops in Hrun. cbv zeta in Hrun.
  apply extras_keys in Hrun as [Hnames Hkeys]. apply Hkeys.
  destruct (String.eqb_spec op "exact") as [-> | Hne]; subst derived.
  - left. apply base_fields_base_key. split.
    + apply Hnames in Hentry. now apply base_lookup_reflected in Hentry.
    + exact (Hpass _ _ Hentry).
  - right. now exists name, extras, op, data.
Qed.

Lemma extras_of_failure (name : string) (field : django_field)
  (extras : pydict pyval) (fields : pydict (option InputType)) (e : exn) :
  input_fields_extras_of convert_m2m registry name field extras fields
  = Raise e ->
  (e = KeyError name /\ ~ In name (dict_keys fields))
  \/ (exists op data,
         In (op, data) extras /\ op <> "exact"
         /\ is_config_value data = false
         /\ e = AttributeError "object has no attribute 'get'").
Proof.
  revert fields. induction extras as [| [op data] rest IH]; intros fields Hrun.
  - discriminate Hrun.
  - cbn [input_fields_extras_of] in Hrun.
    assert (Hlater :
              (exists o d,
                  In (o, d) rest /\ o <> "exact" /\ is_config_value d = false
                  /\ e = AttributeError "object has no attribute 'get'") ->
              exists o d,
                In (o, d) ((op, data) :: rest) /\ o <> "exact"
                /\ is_config_value d = false
                /\ e = AttributeError "object has no attribute 'get'").
    { intros (o & d & Hin & Hrest). exists o, d. split; [now right | exact Hrest]. }
    destruct (String.eqb_spec op "exact") as [-> | Hop].
    + destruct (IH _ Hrun) as [H | H]; [now left | right; now apply Hlater].
    + destruct (extra_data_config data) as [cfg | e0] eqn:Hcfg.
      * cbn [bind] in Hrun.
        destruct (convert_m2m field registry (Some false) cfg PyNone) as [t |].
        -- cbn [bind] in Hrun. destruct (IH _ Hrun) as [[He Hout] | H];
             [left | right; now apply Hlater].
           split; [exact He |]. intros Hin. apply Hout.
           apply dict_keys_set. now right.
        -- unfold dict_getitem in Hrun.
           destruct (dict_get name fields) as [v |] eqn:Hget; cbn [bind] in Hrun.
           ++ destruct (IH _ Hrun) as [[He Hout] | H];
                [left | right; now apply Hlater].
              split; [exact He |]. intros Hin. apply Hout.
              apply dict_keys_set. now right.
           ++ injection Hrun as <-. left. split; [reflexivity |].
              now apply dict_get_none_keys.
      * cbn [bind] in Hrun. injection Hrun as <-. right. exists op, data.
        split; [now left |]. split; [exact Hop |].
        destruct data; cbn in Hcfg; try discriminate Hcfg;
          injection Hcfg as <-; split; reflexivity.
Qed.

Lemma extras_failure (model : django_model) (entries : extras_config)
  (fields_lookup : pydict django_field) (fields : pydict (option InputType))
  (e : exn) :
  input_fields_extras convert_m2m registry model entries fields_lookup fields
  = Raise e ->
  (exists name extras,
      In (name, extras) entries
      /\ ~ In name (dict_keys fields_lookup)
      /\ e = GraphQLError (extras_error_message name model))
  \/ (exists name extras,
         In (name, extras) entries
         /\ In name (dict_keys fields_lookup)
         /\ ~ In name (dict_keys fields)
         /\ e = KeyError name)
  \/ (exists name extras op data,
         In (name, extras) entries /\ In (op, data) extras /\ op <> "exact"
         /\ is_config_value data = false
         /\ e = AttributeError "object has no attribute 'get'").
Proof.
  revert fields. induction entries as [| [name extras] rest IH];
    intros fields Hrun.
  - discriminate Hrun.
  - cbn [input_fields_extras] in Hrun.
    destruct (dict_get name fields_lookup) as [field |] eqn:Hget.
    + destruct (input_fields_extras_of convert_m2m registry name field extras fields)
        as [fields1 | e1] eqn:Hof; cbn [bind] in Hrun.
      * destruct (IH _ Hrun)
          as [(n & x & Hin & Hrest)
             | [(n & x & Hin & Hl & Hout & He)
               | (n & x & o & d & Hin & Hrest)]].
        -- left. exists n, x. split; [now right | exact Hrest].
        -- right. left. exists n, x. split; [now right |].
           split; [exact Hl |]. split; [| exact He].
           intros Hn. apply Hout.
           apply (extras_of_keys _ _ _ _ _ _ _ Hof). now left.
        -- right. right. exists n, x, o, d. split; [now right | exact Hrest].
      * injection Hrun as <-.
        destruct (extras_of_failure _ _ _ _ _ Hof)
          as [[He Hout] | (o & d & Hin & Hrest)].
        -- right. left. exists name, extras. split; [now left |].
           split; [exact (dict_get_some_keys _ _ _ Hget) |]. now split.
        -- right. right. exists name, extras, o, d.
           split; [now left |]. split; [exact Hin | exact Hrest].
    + injection Hrun as <-. left. exists name, extras. split; [now left |].
      split; [now apply dict_get_none_keys | reflexivity].
Qed.

(** X13.  [get_input_fields_for_model] fails in three ways only, each through
    an entry of the many-to-many extras: the schema error, for an entry
    naming no reflected non-primary-key field; a key error on the field
    name, for an entry naming a reflected field that was filtered out; an
    attribute error, for an operation whose value is neither a boolean nor a
    dict.  It raises no value error and no type error. *)
Theorem input_fields_failures
  (model : django_model)
  (only_fields exclude_fields optional_fields required_fields : list string)
  (many_to_many_extras : option extras_config)
  (foreign_key_extras : option (pydict pyval)) (e : exn) :
  get_input_fields_for_model registry convert_field convert_m2m model
    only_fields exclude_fields optional_fields required_fields
    many_to_many_extras foreign_key_extras
  = Raise e ->
  (exists name extras,
      In (name, extras) (extras_or_empty many_to_many_extras)
      /\ ~ reflected model name
      /\ e = GraphQLError (extras_error_message name model))
  \/ (exists name extras,
         In (name, extras) (extras_or_empty many_to_many_extras)
         /\ reflected model name
         /\ ~ passes_filtering only_fields exclude_fields name
         /\ e = KeyError name)
  \/ (exists name extras op data,
         In (name, extras) (extras_or_empty many_to_many_extras)
         /\ In (op, data) extras /\ op <> "exact"
         /\ is_config_value data = false
         /\ e = AttributeError "object has no attribute 'get'").
Proof.
  rewrite get_input_fields_for_model_loops. cbv zeta. intros Hrun.
  destruct (extras_failure _ _ _ _ _ Hrun)
    as [(n & x & Hin & Hout & He)
       | [(n & x & Hin & Hl & Hout & He) | H]].
  - left. exists n, x. split; [exact Hin |]. split; [| exact He].
    intros Hreflected. apply Hout. now apply base_lookup_reflected.
  - right. left. exists n, x. split; [exact Hin |].
    apply base_lookup_reflected in Hl. split; [exact Hl |].
    split; [| exact He]. intros Hpasses. apply Hout.
    apply base_fields_base_key. split; assumption.
  - right. right. exact H.
Qed.

End BuilderShape.

(** ** The further properties on the sample model *)

Lemma sample_model_names_distinct :
  NoDup (map fst (get_model_fields sample_model)).
Proof.
  cbn. repeat (constructor; [cbn; intuition discriminate |]). constructor.
Qed.

Lemma tags_passes_unfiltered : passes_filtering [] [] "tags".
Proof.
  split; [now left |]. split; [intros [] | reflexivity].
Qed.

Lemma builder_keys_order_witness :
  NoDup (dict_keys [("name", Some "CharField");
                    ("tags", Some "ManyToManyField");
                    ("tags_add", Some "[ID]")])
  /\ exists added,
      dict_keys [("name", Some "CharField");
                 ("tags", Some "ManyToManyField");
                 ("tags_add", Some "[ID]")]
      = (map fst (filter (is_kept [] ["parent"]) (get_model_fields sample_model))
           ++ added)%list
      /\ forall key,
          In key added ->
          extras_key (reflected sample_model)
            [("tags", [("add", PyDict [("type", PyStr "ID")])])] key.
Proof.
  apply (builder_keys_order tt sample_convert_field sample_convert_m2m
           sample_model [] ["parent"] [] []
           (Some [("tags", [("add", PyDict [("type", PyStr "ID")])])]) None).
  - exact sample_model_names_distinct.
  - reflexivity.
Defined.

Lemma only_fields_covering_all_witness :
  get_input_fields_for_model tt sample_convert_field sample_convert_m2m
    sample_model ["tags"; "parent"; "name"; "id"] ["parent"] ["name"] [] None None
  = get_input_fields_for_model tt sample_convert_field sample_convert_m2m
      sample_model [] ["parent"] ["name"] [] None None.
Proof.
  apply (only_fields_covering_all tt sample_convert_field sample_convert_m2m
           sample_model ["tags"; "parent"; "name"; "id"]).
  intros name field Hin. cbn in Hin.
  destruct Hin as [Heq | [Heq | [Heq | [Heq | []]]]]; injection Heq as <- _;
    cbn; auto.
Defined.

Lemma builders_return_witness :
  (exists fields,
      get_input_fields_for_model tt sample_convert_field sample_convert_m2m
        sample_model [] [] [] [] (Some [("tags", [("add", PyBool true)])]) None
      = Return fields)
  /\ (exists fields,
         get_all_optional_input_fields_for_model tt sample_convert_field
           sample_convert_m2m sample_model [] []
           (Some [("tags", [("add", PyBool true)])]) None
         = Return fields).
Proof.
  apply (builders_return tt sample_convert_field sample_convert_m2m
           sample_model [] [] [] []
           (Some [("tags", [("add", PyBool true)])]) None).
  intros name extras [Heq | []]. injection Heq as <- <-. split.
  - split; [exact tags_is_reflected | exact tags_passes_unfiltered].
  - intros op data [Heq | []] _. now injection Heq as <- <-.
Defined.

Lemma extras_fallback_key_error_witness :
  get_input_fields_for_model tt sample_convert_field sample_convert_m2m
    sample_model [] ["tags"] [] []
    (Some [("tags", [("add", PyBool true)])]) None
  = Raise (KeyError "tags").
Proof.
  apply (extras_fallback_key_error tt sample_convert_field sample_convert_m2m
           sample_model [] ["tags"] [] []
           (Some [("tags", [("add", PyBool true)])]) None
           "tags" (mkField "ManyToManyField" false) "add" (PyBool true)
           (PyDict []) [] []).
  - exact sample_model_names_distinct.
  - cbn. do 3 right. now left.
  - reflexivity.
  - intros (_ & Hexcluded & _). apply Hexcluded. now left.
  - reflexivity.
  - discriminate.
  - reflexivity.
  - reflexivity.
Defined.

Lemma primary_key_extras_rejected_witness :
  get_input_fields_for_model tt sample_convert_field sample_convert_m2m
    sample_model [] [] [] [] (Some [("id", [("add", PyBool true)])]) None
  = Raise (GraphQLError (extras_error_message "id" sample_model)).
Proof.
  apply (primary_key_extras_rejected tt sample_convert_field sample_convert_m2m
           sample_model [] [] [] []
           (Some [("id", [("add", PyBool true)])]) None
           "id" (mkField "AutoField" true) [("add", PyBool true)] []).
  - exact sample_model_names_distinct.
  - cbn. now left.
  - reflexivity.
  - reflexivity.
Defined.

Lemma predicted_names_are_keys_witness :
  In "tags_add"
    (dict_keys [("name", Some "CharField"); ("parent", Some "ForeignKey");
                ("tags", Some "ManyToManyField");
                ("tags_add", Some "ManyToManyField")]).
Proof.
  apply (predicted_names_are_keys tt sample_convert_field sample_convert_m2m
           sample_model [] [] [] []
           (Some [("tags", [("exact", PyBool true); ("add", PyBool true)])])
           None).
  - reflexivity.
  - intros name extras [Heq | []]. injection Heq as <- _.
    exact tags_passes_unfiltered.
  - cbn. right. now left.
Defined.

Lemma input_fields_failures_witness :
  (exists name extras,
      In (name, extras) [("tags", [("add", PyBool true)])]
      /\ ~ reflected sample_model name
      /\ KeyError "tags" = GraphQLError (extras_error_message name sample_model))
  \/ (exists name extras,
         In (name, extras) [("tags", [("add", PyBool true)])]
         /\ reflected sample_model name
         /\ ~ passes_filtering [] ["tags"] name
         /\ KeyError "tags" = KeyError name)
  \/ (exists name extras op data,
         In (name, extras) [("tags", [("add", PyBool true)])]
         /\ In (op, data) extras /\ op <> "exact"
         /\ is_config_value data = false
         /\ KeyError "tags" = AttributeError "object has no attribute 'get'").
Proof.
  apply (input_fields_failures tt sample_convert_field sample_convert_m2m
           sample_model [] ["tags"] [] []
           (Some [("tags", [("add", PyBool true)])]) None (KeyError "tags")).
  reflexivity.
Defined.
